(** * The chorom message workflow (src/main.py), embedded in Rocq

    The workflow turns one inbound WhatsApp message into either a catalog
    search or a catalog ingestion.  Its state, [AgentState], is a Python
    [TypedDict], that is a plain [dict] at run time, mutated in place by
    every node of the graph.  The embedding keeps it a finite map from
    field names to Python values, so that [state.get(k)], [state.get(k, d)]
    and [state[k]] keep their three different behaviours on a missing key.

    External collaborators (the language model, the Meilisearch index,
    [uuid.uuid4], the media download) are variables of the section; every
    call to one of them is appended to a log carried next to the state, so
    that "the backend is never invoked" is a statement about that log. *)

From Stdlib Require Import ZArith Ascii String.
From stdpp Require Import gmap strings list fin_maps pretty.

Set Warnings "-register-all".
Local Open Scope string_scope.
Local Open Scope Z_scope.

(** ** Python values *)

(** The values that flow through the state: JSON-like data, and instances
    of library classes ([TaskInfo], [pywa.types.Message]) as the list of
    their attributes.  A [float] is kept as its IEEE-754 binary64 bit
    pattern; a [dict] keeps its insertion order. *)
Inductive pyval : Type :=
| VNone
| VBool (b : bool)
| VInt (n : Z)
| VFloat (bits : Z)
| VStr (s : string)
| VList (l : list pyval)
| VDict (d : list (string * pyval))
| VObject (attrs : list (string * pyval)).

(** [bool(v)]: what [if v] and [not v] test. *)
Definition truthy (v : pyval) : bool :=
  match v with
  | VNone => false
  | VBool b => b
  | VInt n => negb (n =? 0)
  | VFloat bits => negb (Z.land bits (2 ^ 63 - 1) =? 0)
  | VStr s => negb (String.eqb s "")
  | VList l => match l with [] => false | _ => true end
  | VDict d => match d with [] => false | _ => true end
  | VObject _ => true
  end.

(** [v == 'lit'] for a string literal. *)
Definition eq_str (v : pyval) (lit : string) : bool :=
  match v with
  | VStr s => String.eqb s lit
  | _ => false
  end.

(** [a or b]. *)
Definition py_or (a b : pyval) : pyval := if truthy a then a else b.

Definition opt_str (o : option string) : pyval :=
  match o with Some s => VStr s | None => VNone end.

Definition opt_float (o : option Z) : pyval :=
  match o with Some b => VFloat b | None => VNone end.

(** [d.get(k)] and [k in d] on a dict literal or a decoded JSON object. *)
Fixpoint assoc (k : string) (d : list (string * pyval)) : option pyval :=
  match d with
  | [] => None
  | (k', v) :: d' => if String.eqb k k' then Some v else assoc k d'
  end.

(** ** Strings *)

(** A Python [str] is kept as the bytes of its UTF-8 encoding.  A
    character is one byte that is not a continuation byte, followed by
    the continuation bytes ([10xxxxxx]) that belong to it; [len] and
    slices count characters, not bytes. *)
Definition is_continuation (c : ascii) : bool :=
  match c with
  | Ascii _ _ _ _ _ _ false true => true
  | _ => false
  end.

(** [len(s)] *)
Fixpoint str_len (s : string) : nat :=
  match s with
  | EmptyString => O
  | String c r => if is_continuation c then str_len r else S (str_len r)
  end.

(** The continuation bytes [s] starts with. *)
Fixpoint continuation (s : string) : string :=
  match s with
  | EmptyString => EmptyString
  | String c r =>
      if is_continuation c then String c (continuation r) else EmptyString
  end.

Definition newline : string := String "010"%char EmptyString.

(** [s.split('\n')[0]] *)
Fixpoint first_line (s : string) : string :=
  match s with
  | EmptyString => EmptyString
  | String c r =>
      if Ascii.eqb c "010"%char then EmptyString else String c (first_line r)
  end.

(** [s[:n]]: the first [n] characters.  A continuation byte belongs to
    the character before it, which was counted already. *)
Fixpoint str_take (n : nat) (s : string) : string :=
  match s with
  | EmptyString => EmptyString
  | String c r =>
      if is_continuation c then String c (str_take n r)
      else
        match n with
        | O => EmptyString
        | S n' => String c (str_take n' r)
        end
  end.

(** [sep.join(items)] *)
Fixpoint str_join (sep : string) (items : list string) : string :=
  match items with
  | [] => ""
  | [x] => x
  | x :: rest => x +:+ sep +:+ str_join sep rest
  end.

(** [needle in hay] for strings. *)
Definition substring (needle hay : string) : Prop :=
  ∃ before after, hay = before +:+ needle +:+ after.

(** ** Exceptions, the call log and the monad of a node *)

Inductive exn : Type :=
| KeyError (key : string)
| TypeError
| AttributeError
| BackendError (what : string).

Inductive outcome (A : Type) : Type :=
| Ok (a : A)
| Raise (e : exn).
Arguments Ok {A} a.
Arguments Raise {A} e.

(** One entry per call that leaves the process. *)
Inductive call : Type :=
| LlmInvoke (prompt : string)
| AddDocuments (docs : list pyval)
| MeiliSearch (query : pyval) (search_params : list (string * pyval))
| Uuid4
| DownloadMedia (media_id : string)
| ReplyText (text : string).

Record World : Type := mkWorld {
  st : gmap string pyval;
  calls : list call
}.

(** A statement of a node: it may read and write the state dict, call out,
    and either finish or raise.  A raise keeps the writes made before it,
    as an in-place mutation does. *)
Definition Py (A : Type) : Type := World → outcome A * World.

#[global] Instance Py_ret : MRet Py := λ A a w, (Ok a, w).
#[global] Instance Py_bind : MBind Py := λ A B f m w,
  match m w with
  | (Ok a, w') => f a w'
  | (Raise e, w') => (Raise e, w')
  end.

Definition raise {A} (e : exn) : Py A := λ w, (Raise e, w).

(** [try: body / except Exception: handler] *)
Definition try_except {A} (body : Py A) (handler : exn → Py A) : Py A := λ w,
  match body w with
  | (Ok a, w') => (Ok a, w')
  | (Raise e, w') => handler e w'
  end.

(** [state.get(k)] *)
Definition state_get (k : string) : Py pyval := λ w,
  (Ok (default VNone (st w !! k)), w).

(** [state.get(k, d)] *)
Definition state_get_default (k : string) (d : pyval) : Py pyval := λ w,
  (Ok (default d (st w !! k)), w).

(** [state[k]] *)
Definition state_item (k : string) : Py pyval := λ w,
  match st w !! k with
  | Some v => (Ok v, w)
  | None => (Raise (KeyError k), w)
  end.

(** [state[k] = v] *)
Definition state_set (k : string) (v : pyval) : Py unit := λ w,
  (Ok tt, mkWorld (<[k := v]> (st w)) (calls w)).

Definition log_call (c : call) : Py unit := λ w,
  (Ok tt, mkWorld (st w) (calls w ++ [c])).

Definition is_reply (c : call) : bool :=
  match c with ReplyText _ => true | _ => false end.

Definition is_add_documents (c : call) : bool :=
  match c with AddDocuments _ => true | _ => false end.

Definition lift_outcome {A} (o : outcome A) : Py A := λ w, (o, w).

(** ** Operations of Python on values, with the exceptions they raise *)

(** ['lit' + v]: defined between strings only. *)
Definition str_plus (lit : string) (v : pyval) : outcome string :=
  match v with
  | VStr s => Ok (lit +:+ s)
  | _ => Raise TypeError
  end.

(** [v.get(k, d)]: a method of dicts only. *)
Definition dict_get (v : pyval) (k : string) (d : pyval) : outcome pyval :=
  match v with
  | VDict kv => Ok (default d (assoc k kv))
  | _ => Raise AttributeError
  end.

(** [v[k]] for a string key, reached here on dicts only. *)
Definition dict_item (v : pyval) (k : string) : outcome pyval :=
  match v with
  | VDict kv =>
      match assoc k kv with
      | Some x => Ok x
      | None => Raise (KeyError k)
      end
  | _ => Raise TypeError
  end.

(** [len(v)] *)
Definition py_len (v : pyval) : outcome nat :=
  match v with
  | VStr s => Ok (str_len s)
  | VList l => Ok (List.length l)
  | VDict d => Ok (List.length d)
  | _ => Raise TypeError
  end.

(** The items the comprehension [for hit in v[:3]] runs over: a list gives
    its first three elements, a string its first three characters; nothing
    else can be sliced. *)
Fixpoint chars (s : string) : list pyval :=
  match s with
  | EmptyString => []
  | String c r =>
      if is_continuation c then chars r
      else VStr (String c (continuation r)) :: chars r
  end.

Definition slice3 (v : pyval) : outcome (list pyval) :=
  match v with
  | VList l => Ok (take 3 l)
  | VStr s => Ok (chars (str_take 3 s))
  | _ => Raise TypeError
  end.

(** [[f(x) for x in items]]: left to right, stopping at the first raise. *)
Fixpoint comprehension {A B} (f : A → outcome B) (items : list A)
  : outcome (list B) :=
  match items with
  | [] => Ok []
  | x :: rest =>
      match f x with
      | Raise e => Raise e
      | Ok y =>
          match comprehension f rest with
          | Raise e => Raise e
          | Ok ys => Ok (y :: ys)
          end
      end
  end.

(** ** The analysis record returned by the language model *)

(** [QueryAnalysis], a pydantic model: [intent] is a string, the other
    fields are optional. *)
Record QueryAnalysis : Type := mkAnalysis {
  qa_intent : string;
  qa_item_name : option string;
  qa_location : option string;
  qa_price : option Z;
  qa_currency : option string
}.

(** ** The routing decision *)

Inductive next_step : Type :=
| SearchMeili
| StructureIngestionData
| END.

(** [v in lits] for a list of string literals. *)
Definition in_strs (v : pyval) (lits : list string) : bool :=
  existsb (eq_str v) lits.

Definition query_intents : list string := ["query_product"].
Definition ingest_intents : list string := ["ingest_product"].

(** [route_after_intent_analysis] (main.py 356-388).  It reads the state
    with [get] only and calls nothing, so it is a function from the state
    to the decision and the state it leaves. *)
Definition route_after_intent_analysis (state : gmap string pyval)
  : next_step * gmap string pyval :=
  let intent := default VNone (state !! "intent") in
  if in_strs intent query_intents then
    if truthy (default VNone (state !! "item_name")) then
      (SearchMeili, state)
    else
      (END,
       if negb (truthy (default VNone (state !! "response"))) then
         <["response" := VStr "You asked to search, but didn't specify an item."]> state
       else state)
  else if in_strs intent ingest_intents then
    (StructureIngestionData, state)
  else if eq_str intent "greeting" then
    (END, state)
  else if eq_str intent "unknown" then
    (END, state)
  else
    (END,
     if negb (truthy (default VNone (state !! "response"))) then
       <["response" := VStr "Sorry, I encountered an issue processing your request."]> state
     else state).

(** The router as the conditional edge of the compiled graph (main.py
    403-411).  The engine acts on the value the function returns.  The
    dict the function is handed is not the state of the graph: what the
    function assigns to ['response'] is not kept, and the run goes on,
    or ends, with the state the classification step returned. *)
Definition route : Py next_step := λ w,
  (Ok (fst (route_after_intent_analysis (st w))), w).

(** ** The nodes of the graph *)

Section Workflow.

(** [repr] of a float, a list, a dict or an object: Python's own
    formatting, left uninterpreted. *)
Variable py_repr : pyval → string.

(** [structured_llm.invoke(prompt)]: the analysis, or the exception of a
    failed call. *)
Variable llm_invoke : string → outcome QueryAnalysis.

(** [meili_index.add_documents(docs)]: the reply envelope, or the
    exception of a failed write. *)
Variable add_documents : list pyval → outcome pyval.

(** [meili_index.search(query, search_params)] *)
Variable meili_search : pyval → list (string * pyval) → outcome pyval.

(** [str(uuid.uuid4())], by the number of identifiers drawn before. *)
Variable uuid4 : nat → string.

(** [media_downloader.download_media(...)]: the local path, [None], or
    an exception. *)
Variable download_media : string → outcome (option string).

(** [str(v)], what an f-string writes for [{v}]. *)
Definition py_str (v : pyval) : string :=
  match v with
  | VNone => "None"
  | VBool true => "True"
  | VBool false => "False"
  | VInt n => pretty n
  | VStr s => s
  | VFloat _ | VList _ | VDict _ | VObject _ => py_repr v
  end.

Definition prompt_guidance (message_type : pyval) (media_part : string)
  : string :=
  "The intent is likely either 'query_product' (asking about something) or 'ingest_product' (stating availability/price/details of something, possibly to sell). "
  +:+ "A media file (" +:+ py_str message_type +:+ ") was " +:+ media_part +:+ ". "
  +:+ "If media was present, the intent is almost certainly 'ingest_product'. "
  +:+ "Extract item name, price (if stated), and currency (if stated) from the text. The full text can serve as a description if the intent is ingestion. "
  +:+ "If media was not present, determine intent primarily from the text (lean towards 'query_product' unless keywords like 'sell', 'stock', 'available', 'price' suggest ingestion). Extract location only if it's a query.".

Definition build_prompt (message_type : pyval) (media_part : string)
  (text_content : pyval) : string :=
  "Analyze the following user message content. "
  +:+ prompt_guidance message_type media_part
  +:+ "Text Content: '" +:+ py_str text_content +:+ "'".

(** The [try] block of [analyze_intent_node] (main.py 173-222) and the
    log line after it (224), which reads [state['intent']] and
    [state['item_name']].  The prompt is built before the model is
    called; building it raises when [media_id] is not a string. *)
Definition llm_analysis (message_type media_id text_content : pyval)
  : Py unit :=
  try_except
    (media_part ← lift_outcome
       (if truthy media_id then
          match str_plus "present (ID: " media_id with
          | Ok s => Ok (s +:+ ")")
          | Raise e => Raise e
          end
        else Ok "not present");
     let prompt := build_prompt message_type media_part text_content in
     log_call (LlmInvoke prompt);;
     analysis ← lift_outcome (llm_invoke prompt);
     (if truthy media_id then state_set "intent" (VStr "ingest_product")
      else state_set "intent" (VStr (qa_intent analysis)));;
     state_set "item_name" (opt_str (qa_item_name analysis));;
     state_set "price" (opt_float (qa_price analysis));;
     state_set "currency" (opt_str (qa_currency analysis));;
     intent ← state_item "intent";
     state_set "location"
       (if eq_str intent "query_product" && negb (truthy media_id)
        then opt_str (qa_location analysis) else VNone);;
     intent ← state_item "intent";
     state_set "description"
       (if eq_str intent "ingest_product" then text_content else VNone);;
     intent ← state_item "intent";
     location ← state_item "location";
     (if eq_str intent "query_product" && truthy location then
        state_set "meili_filters"
          (VStr ("vendor = '" +:+ py_str location +:+ "'"));;
        _ ← state_item "meili_filters"; mret tt
      else state_set "meili_filters" VNone);;
     intent ← state_item "intent";
     if eq_str intent "greeting" then
       state_set "response" (VStr "Hello there! How can I help you?")
     else if eq_str intent "unknown" then
       state_set "response" (VStr "Sorry, I'm not sure how to help with that. I can search for products or add new ones if you provide details.")
     else mret tt)
    (λ _,
       state_set "intent" (VStr "error");;
       state_set "response"
         (VStr "Sorry, I had trouble analyzing the details of your request."));;
  _ ← state_item "intent";
  _ ← state_item "item_name";
  mret tt.

(** [analyze_intent_node] (main.py 138-225) *)
Definition analyze_intent_node : Py unit :=
  text_content ← state_get "incoming_text";
  message_type ← state_get "incoming_message_type";
  media_path ← state_get "incoming_media_path";
  media_id ← state_get "incoming_media_id";
  if negb (truthy text_content) && negb (truthy media_id) then
    state_set "intent" (VStr "error");;
    state_set "response"
      (VStr "Sorry, I couldn't understand the message content. Please send text or media.")
  else if truthy media_id then
    state_set "intent" (VStr "ingest_product");;
    llm_analysis message_type media_id
      (if negb (truthy text_content) then VStr "" else text_content)
  else if truthy text_content then
    llm_analysis message_type media_id text_content
  else
    state_set "intent" (VStr "error");;
    state_set "response" (VStr "Internal error processing message state.").

(** [str(uuid.uuid4())] *)
Definition is_uuid4 (c : call) : bool :=
  match c with Uuid4 => true | _ => false end.

Definition fresh_uuid : Py string := λ w,
  (Ok (uuid4 (List.length (List.filter is_uuid4 (calls w)))),
   mkWorld (st w) (calls w ++ [Uuid4])).

(** [description.split('\n')[0][:50]]: the first line, cut to 50
    characters; [split] is a method of strings. *)
Definition fallback_name (description : pyval) : outcome pyval :=
  match description with
  | VStr s => Ok (VStr (str_take 50 (first_line s)))
  | _ => Raise AttributeError
  end.

(** [structure_ingestion_data_node] (main.py 227-272) *)
Definition structure_ingestion_data_node : Py unit :=
  sender_id ← state_get "sender_id";
  item_name ← state_get "item_name";
  description ← state_get "description";
  price ← state_get "price";
  currency ← state_get_default "currency" (VStr "UGX");
  media_path ← state_get "incoming_media_path";
  if negb (truthy item_name) && negb (truthy description) then
    state_set "response"
      (VStr "Missing product name/description for ingestion.");;
    state_set "product_to_ingest" VNone
  else
    item_name ←
      (if negb (truthy item_name) && truthy description then
         lift_outcome (fallback_name description)
       else if negb (truthy item_name) then mret (VStr "Unknown Item")
       else mret item_name);
    id ← fresh_uuid;
    let product_data :=
      VDict [("id", VStr id);
             ("name", item_name);
             ("description", py_or description (VStr ""));
             ("price", price);
             ("currency", currency);
             ("category", VStr "Unknown");
             ("vendor", sender_id);
             ("media_path", media_path)] in
    state_set "product_to_ingest" product_data.

(** The two envelope shapes of main.py 292-299: an object with a
    [task_uid] attribute, or a dict with a ['taskUid'] key. *)
Definition task_id_of (task_info : pyval) : option pyval :=
  match task_info with
  | VObject attrs => assoc "task_uid" attrs
  | VDict d => assoc "taskUid" d
  | _ => None
  end.

(** [add_product_to_meili_node] (main.py 274-311) *)
Definition add_product_to_meili_node : Py unit :=
  product_data ← state_get "product_to_ingest";
  product_name ← lift_outcome
    (if truthy product_data
     then dict_get product_data "name" (VStr "the product")
     else Ok (VStr "the product"));
  if negb (truthy product_data) then
    state_set "response"
      (VStr "Error: Could not structure product data for storage.")
  else
    try_except
      (_ ← lift_outcome (dict_item product_data "id");
       log_call (AddDocuments [product_data]);;
       task_info ← lift_outcome (add_documents [product_data]);
       match task_id_of task_info with
       | Some task_id =>
           state_set "meili_task_id" task_id;;
           state_set "meili_task_status" (VStr "enqueued")
       | None =>
           state_set "response"
             (VStr "Error: Failed to get task ID after submitting product.")
       end)
      (λ _,
         state_set "response"
           (VStr "Sorry, there was an error adding the product to the catalog.")).

(** One line of the summary (main.py 343), for a hit that is a dict. *)
Definition hit_line (d : list (string * pyval)) : string :=
  "- " +:+ py_str (default (VStr "N/A") (assoc "name" d))
  +:+ " (" +:+ py_str (default (VInt 0) (assoc "price" d))
  +:+ " " +:+ py_str (default (VStr "") (assoc "currency" d))
  +:+ ", Vendor: " +:+ py_str (default (VStr "N/A") (assoc "vendor" d))
  +:+ ")".

(** [hit.get] exists on dicts only. *)
Definition format_hit (hit : pyval) : outcome string :=
  match hit with
  | VDict d => Ok (hit_line d)
  | _ => Raise AttributeError
  end.

(** [search_meilisearch_node] (main.py 313-353) *)
Definition search_meilisearch_node : Py unit :=
  query ← state_get "item_name";
  filters ← state_get "meili_filters";
  intent ← state_get "intent";
  if negb (truthy query) || eq_str intent "error" then
    response ← state_get "response";
    (if negb (truthy response) then
       state_set "response"
         (VStr "Sorry, I couldn't determine what to search for.")
     else mret tt);;
    state_set "search_results" (VList [])
  else
    try_except
      (let search_params :=
         if truthy filters then [("filter", filters)] else [] in
       log_call (MeiliSearch query search_params);;
       search_result ← lift_outcome (meili_search query search_params);
       hits ← lift_outcome (dict_get search_result "hits" (VList []));
       state_set "search_results" hits;;
       _ ← lift_outcome (py_len hits);
       if negb (truthy hits) then
         location ← state_item "location";
         state_set "response"
           (VStr ("I couldn't find any '" +:+ py_str query +:+ "'"
                  +:+ (if truthy location
                       then " in " +:+ py_str location +:+ "."
                       else ".")))
       else
         top ← lift_outcome (slice3 hits);
         lines ← lift_outcome (comprehension format_hit top);
         let formatted_hits := str_join newline lines in
         location ← state_item "location";
         let location_str :=
           if truthy location then " in " +:+ py_str location else "" in
         state_set "response"
           (VStr ("Found these results for '" +:+ py_str query +:+ "'"
                  +:+ location_str +:+ ":" +:+ newline +:+ formatted_hits)))
      (λ _,
         state_set "search_results" (VList []);;
         state_set "response" (VStr "Sorry, there was an error searching.")).

(** ** The graph (main.py 390-421)

    Entry point [analyze_intent]; a conditional edge through the router;
    [search_meili → END]; [structure_ingestion_data →
    add_product_to_meili → END].  The state a node returns is the state
    the next node reads; the router only chooses the next node. *)
Definition app_graph_invoke : Py unit :=
  analyze_intent_node;;
  next ← route;
  match next with
  | SearchMeili => search_meilisearch_node
  | StructureIngestionData =>
      structure_ingestion_data_node;;
      add_product_to_meili_node
  | END => mret tt
  end.

(** ** The message handler (main.py 441-542) *)

Record Media : Type := mkMedia {
  media_id : string;
  mime_type : string;
  filename : option string
}.

Record Message : Type := mkMessage {
  wa_id : string;
  type_value : string;
  text : option string;
  caption : option string;
  image : option Media;
  video : option Media;
  audio : option Media;
  document : option Media
}.

Definition message_object (msg : Message) : pyval :=
  VObject [("type", VStr (type_value msg));
           ("text", opt_str (text msg));
           ("caption", opt_str (caption msg))].

(** The [AgentState(...)] literal of main.py 446-467: every key of the
    state is present from the start, most of them with value [None]. *)
Definition initial_state (msg : Message) : gmap string pyval :=
  list_to_map
    [("sender_id", VStr (wa_id msg));
     ("incoming_message_type", VStr (type_value msg));
     ("incoming_text", VNone);
     ("incoming_media_id", VNone);
     ("incoming_media_path", VNone);
     ("incoming_media_mime_type", VNone);
     ("incoming_media_filename", VNone);
     ("intent", VNone);
     ("item_name", VNone);
     ("location", VNone);
     ("price", VNone);
     ("currency", VNone);
     ("description", VNone);
     ("product_to_ingest", VNone);
     ("meili_filters", VNone);
     ("search_results", VNone);
     ("response", VNone);
     ("meili_task_id", VNone);
     ("meili_task_status", VNone);
     ("whatsapp_message_object", message_object msg)].

(** [image], else [video], else [audio], else [document]; only a document
    carries a file name into the state. *)
Definition media_to_download (msg : Message) : option (Media * bool) :=
  match image msg, video msg, audio msg, document msg with
  | Some m, _, _, _ => Some (m, false)
  | None, Some m, _, _ => Some (m, false)
  | None, None, Some m, _ => Some (m, false)
  | None, None, None, Some m => Some (m, true)
  | None, None, None, None => None
  end.

(** The state the graph is invoked on (main.py 446-523). *)
Definition prepare_state (msg : Message) : Py unit :=
  (λ w, (Ok tt, mkWorld (initial_state msg) (calls w)));;
  (if truthy (opt_str (text msg)) then
     state_set "incoming_text" (opt_str (text msg))
   else if truthy (opt_str (caption msg)) then
     state_set "incoming_text" (opt_str (caption msg))
   else mret tt);;
  match media_to_download msg with
  | None => mret tt
  | Some (m, is_document) =>
      state_set "incoming_media_mime_type" (VStr (mime_type m));;
      (if is_document then
         state_set "incoming_media_filename" (opt_str (filename m))
       else mret tt);;
      state_set "incoming_media_id" (VStr (media_id m));;
      try_except
        (log_call (DownloadMedia (media_id m));;
         file_path ← lift_outcome (download_media (media_id m));
         if truthy (opt_str file_path) then
           state_set "incoming_media_path" (opt_str file_path)
         else mret tt)
        (λ _, mret tt)
  end.

(** [handle_incoming_message]: the graph runs on the prepared state; an
    exception that escapes it is answered with a fixed apology. *)
Definition handle_incoming_message (msg : Message) : Py unit :=
  prepare_state msg;;
  try_except app_graph_invoke
    (λ _, log_call (ReplyText "Sorry, an internal error occurred while processing your request.")).

(** The final state of a message handled from a clean log. *)
Definition run_message (msg : Message) : outcome unit * World :=
  handle_incoming_message msg (mkWorld ∅ []).

End Workflow.

(** ** Reading the state in statements *)

(** [state.get(k)] on a world, as the nodes read it. *)
Definition field (w : World) (k : string) : pyval := default VNone (st w !! k).

(** [state.get('response')] on a bare state. *)
Definition resp (s : gmap string pyval) : pyval := default VNone (s !! "response").

(** ** Concrete collaborators and messages

    Stand-ins for the external services, used to run the workflow on
    explicit inputs. *)
Module Sample.

Definition repr (v : pyval) : string := "<repr>".

Definition uuid (n : nat) : string := "3f2b6c1e-0d4a-4c57-9b1e-7a5d2e8c4f10".

Definition download (media : string) : outcome (option string) :=
  Ok (Some "media_uploads/256700123456_wamid1.jpg").

(** 5000.0 as a binary64. *)
Definition price_5000 : Z := 0x40B3880000000000.

Definition llm_returns (a : QueryAnalysis) (prompt : string)
  : outcome QueryAnalysis := Ok a.

Definition llm_fails (prompt : string) : outcome QueryAnalysis :=
  Raise (BackendError "openai").

Definition shoes_full : QueryAnalysis :=
  mkAnalysis "ingest_product" (Some "Nike shoes") None (Some price_5000)
    (Some "UGX").

Definition shoes_no_currency : QueryAnalysis :=
  mkAnalysis "ingest_product" (Some "Nike shoes") None (Some price_5000) None.

Definition nothing_extracted : QueryAnalysis :=
  mkAnalysis "ingest_product" None None None None.

Definition iphone_query : QueryAnalysis :=
  mkAnalysis "query_product" (Some "iphone") None None None.

Definition add_task_object (docs : list pyval) : outcome pyval :=
  Ok (VObject [("task_uid", VInt 7); ("status", VStr "enqueued")]).

Definition add_fails (docs : list pyval) : outcome pyval :=
  Raise (BackendError "meilisearch").

Definition hit_a : list (string * pyval) :=
  [("id", VStr "a"); ("name", VStr "iPhone 12"); ("price", VInt 900000);
   ("currency", VStr "UGX"); ("vendor", VStr "256700111111")].

Definition hit_b : list (string * pyval) :=
  [("id", VStr "b"); ("name", VStr "iPhone 13"); ("price", VInt 1200000);
   ("currency", VStr "UGX"); ("vendor", VStr "256700222222")].

Definition search_two_hits (query : pyval)
  (search_params : list (string * pyval)) : outcome pyval :=
  Ok (VDict [("hits", VList [VDict hit_a; VDict hit_b]);
             ("estimatedTotalHits", VInt 2);
             ("processingTimeMs", VInt 1)]).

Definition search_no_hits (query : pyval)
  (search_params : list (string * pyval)) : outcome pyval :=
  Ok (VDict [("hits", VList []); ("estimatedTotalHits", VInt 0)]).

Definition photo : Media := mkMedia "1376223850343422" "image/jpeg" None.

(** A photo with a caption. *)
Definition image_with_caption : Message :=
  mkMessage "256700123456" "image" None (Some "Nike shoes 5000")
    (Some photo) None None None.

(** A photo alone. *)
Definition image_alone : Message :=
  mkMessage "256700123456" "image" None None (Some photo) None None None.

(** A message with neither text nor media (a location pin, say). *)
Definition empty_message : Message :=
  mkMessage "256700123456" "location" None None None None None None.

(** A text question. *)
Definition text_question : Message :=
  mkMessage "256700123456" "text" (Some "iphone price") None
    None None None None.

(** The world the graph starts from for a message. *)
Definition prepared (msg : Message) : World :=
  snd (prepare_state download msg (mkWorld ∅ [])).

(** A state that reaches the router after a greeting was classified but
    with no response written yet. *)
Definition greeting_state : gmap string pyval :=
  <["intent" := VStr "greeting"]> (initial_state text_question).

(** The state of a query once the classifier has run. *)
Definition query_world : World :=
  snd (analyze_intent_node repr (llm_returns iphone_query)
         (prepared text_question)).

(** The state of an ingestion once the structurer has run. *)
Definition structured_world : World :=
  snd ((analyze_intent_node repr (llm_returns shoes_full);;
        structure_ingestion_data_node uuid) (prepared image_with_caption)).

(** The state of a photo sent alone once the classifier, which extracted
    nothing, has run. *)
Definition unnamed_photo_world : World :=
  snd (analyze_intent_node repr (llm_returns nothing_extracted)
         (prepared image_alone)).

(** The same run, up to and including the structurer. *)
Definition unnamed_photo_structured : World :=
  snd (structure_ingestion_data_node uuid unnamed_photo_world).

(** The product the structurer builds for the captioned photo. *)
Definition shoes_product : list (string * pyval) :=
  [("id", VStr (uuid 0));
   ("name", VStr "Nike shoes");
   ("description", VStr "Nike shoes 5000");
   ("price", VFloat price_5000);
   ("currency", VStr "UGX");
   ("category", VStr "Unknown");
   ("vendor", VStr "256700123456");
   ("media_path", VStr "media_uploads/256700123456_wamid1.jpg")].

(** Whole runs of the handler. *)
Definition ingestion_run : outcome unit * World :=
  run_message repr (llm_returns shoes_full) add_task_object search_no_hits
    uuid download image_with_caption.

Definition no_currency_run : outcome unit * World :=
  run_message repr (llm_returns shoes_no_currency) add_task_object
    search_no_hits uuid download image_with_caption.

Definition unnamed_photo_run : outcome unit * World :=
  run_message repr (llm_returns nothing_extracted) add_task_object
    search_no_hits uuid download image_alone.

End Sample.

(** ** Shapes of values and of the call log, for statements *)

(** [isinstance(v, dict)] *)
Definition is_dict (v : pyval) : bool :=
  match v with VDict _ => true | _ => false end.

(** A value that is a [str] or [None], as [Optional[str]] fields are. *)
Definition str_or_none (v : pyval) : Prop := v = VNone ∨ ∃ s, v = VStr s.

(** A value that is a [dict] or [None]. *)
Definition dict_or_none (v : pyval) : Prop := v = VNone ∨ ∃ d, v = VDict d.

(** The fields [analyze_intent_node] assigns (main.py 150-222). *)
Definition analysis_fields : list string :=
  ["intent"; "item_name"; "price"; "currency"; "location"; "description";
   "meili_filters"; "response"].

(** The calls one run of the graph may add to the log: nothing; the
    language model alone; the model and one search; the model, one id
    and one write. *)
Definition graph_log (l : list call) : bool :=
  match l with
  | [] => true
  | [LlmInvoke _] => true
  | [LlmInvoke _; MeiliSearch _ _] => true
  | [LlmInvoke _; Uuid4; AddDocuments _] => true
  | _ => false
  end.

(** A run that the router ended on a state without a response: the
    message the router wrote to the dict it was handed is not in the
    state the run leaves. *)
Definition unanswered (w : World) : Prop :=
  fst (route_after_intent_analysis (st w)) = END ∧
  truthy (field w "response") = false ∧
  truthy (resp (snd (route_after_intent_analysis (st w)))) = true.

(** What the handler logs before the graph runs (main.py 493-505). *)
Definition download_log (msg : Message) : list call :=
  match media_to_download msg with
  | Some (m, _) => [DownloadMedia (media_id m)]
  | None => []
  end.

(** [incoming_media_path] after the download (main.py 507-523): the path
    when the download returned a non-empty one, [None] when it returned
    nothing or raised. *)
Definition stored_path (r : outcome (option string)) : pyval :=
  match r with
  | Ok (Some p) => if truthy (VStr p) then VStr p else VNone
  | _ => VNone
  end.

(** The keys of a product document, in the order they are written
    (main.py 256-265). *)
Definition product_keys : list string :=
  ["id"; "name"; "description"; "price"; "currency"; "category"; "vendor";
   "media_path"].

(** ** The HTTP clients (src/whatsapp.py, src/whatsapp_client.py) *)

Module Http.

(** The exceptions of the two client modules: those of [requests], the
    built-in ones of the workflow, [IndexError], [ValueError], [OSError]. *)
Inductive error : Type :=
| RequestException (what : string)
| IndexError
| ValueError (msg : string)
| OSError
| Builtin (e : exn).

Inductive result (A : Type) : Type :=
| Done (a : A)
| Failed (e : error).
Arguments Done {A} a.
Arguments Failed {A} e.

(** What leaves the process. *)
Inductive request : Type :=
| HttpPost (url : string) (headers : list (string * string)) (json : pyval)
| HttpGet (url : string) (headers : list (string * string))
| HttpStream (url : pyval) (headers : list (string * string))
| NewUuid.

(** The requests made so far and the files on disk. *)
Record Env : Type := mkEnv {
  requests : list request;
  files : gset string
}.

Definition IO (A : Type) : Type := Env → result A * Env.

#[global] Instance IO_ret : MRet IO := λ A a s, (Done a, s).
#[global] Instance IO_bind : MBind IO := λ A B f m s,
  match m s with
  | (Done a, s') => f a s'
  | (Failed e, s') => (Failed e, s')
  end.

(** [try: body / except ...: handler], every clause of which is given by
    [handler]. *)
Definition try_io {A} (body : IO A) (handler : error → IO A) : IO A := λ s,
  match body s with
  | (Done a, s') => (Done a, s')
  | (Failed e, s') => handler e s'
  end.

Definition send (r : request) : IO unit := λ s,
  (Done tt, mkEnv (requests s ++ [r]) (files s)).

Definition lift {A} (r : result A) : IO A := λ s, (r, s).

Definition of_outcome {A} (o : outcome A) : result A :=
  match o with
  | Ok a => Done a
  | Raise e => Failed (Builtin e)
  end.

(** [v[0]]: the first item of a list or of a string; a decoded JSON
    object has string keys only, so [0] is never one of its keys. *)
Definition first_item (v : pyval) : result pyval :=
  match v with
  | VList (x :: _) => Done x
  | VList [] => Failed IndexError
  | VStr (String c r) => Done (VStr (String c (continuation r)))
  | VStr EmptyString => Failed IndexError
  | VDict _ => Failed (Builtin (KeyError "0"))
  | _ => Failed (Builtin TypeError)
  end.

End Http.

(** ** src/whatsapp.py: sending a text message *)
Module Whatsapp.
Import Http.

Definition META_GRAPH_API_URL : string := "https://graph.facebook.com/v20.0/".

Record WhatsAppClient : Type := mkClient {
  access_token : string;
  phone_number_id : string;
  base_url : string;
  headers : list (string * string)
}.

(** [WhatsAppClient.__init__] (whatsapp.py 17-37) *)
Definition init (access_token phone_number_id : string)
  : result WhatsAppClient :=
  if negb (truthy (VStr access_token)) then
    Failed (ValueError "Access token cannot be empty.")
  else if negb (truthy (VStr phone_number_id)) then
    Failed (ValueError "Phone number ID cannot be empty.")
  else
    Done (mkClient access_token phone_number_id
            (META_GRAPH_API_URL +:+ phone_number_id +:+ "/messages")
            [("Authorization", "Bearer " +:+ access_token);
             ("Content-Type", "application/json")]).

Definition payload (to message_body : string) : pyval :=
  VDict [("messaging_product", VStr "whatsapp");
         ("recipient_type", VStr "individual");
         ("to", VStr to);
         ("type", VStr "text");
         ("text", VDict [("preview_url", VBool false);
                         ("body", VStr message_body)])].

Section Send.

(** [requests.post(url, headers=..., json=..., timeout=10)] followed by
    [raise_for_status()] and [json()]: the decoded body, or the
    exception of whichever of the three failed. *)
Variable requests_post :
  string → list (string * string) → pyval → result pyval.

(** [send_text_message] (whatsapp.py 39-79).  Both [except] clauses
    return [False]. *)
Definition send_text_message (self : WhatsAppClient)
  (to message_body : string) : IO bool :=
  try_io
    (send (HttpPost (base_url self) (headers self) (payload to message_body));;
     response_data ← lift
       (requests_post (base_url self) (headers self) (payload to message_body));
     messages ← lift
       (of_outcome (dict_get response_data "messages" (VList [VDict []])));
     first ← lift (first_item messages);
     message_id ← lift (of_outcome (dict_get first "id" VNone));
     if truthy message_id then mret true else mret false)
    (λ _, mret false).

End Send.
End Whatsapp.

(** ** src/whatsapp_client.py: downloading media *)
Module WhatsappClient.
Import Http.

Record WhatsAppClient : Type := mkClient {
  bearer_token : string;
  base_url : string;
  headers : list (string * string)
}.

(** How a streamed download ends (whatsapp_client.py 77-81): before the
    file is opened, after it was opened, or with the last chunk
    written. *)
Inductive stream_result : Type :=
| Refused (e : error)
| Broken (e : error)
| Complete.

Section Download.

(** [requests.get(url, headers=...)], [raise_for_status()], [json()] *)
Variable requests_get : string → list (string * string) → result pyval.

(** The streamed [requests.get] and the writing of its chunks. *)
Variable requests_stream : pyval → list (string * string) → stream_result.

(** [os.remove(path)] succeeds. *)
Variable os_remove : string → bool.

(** [os.path.splitext(name)[1]], [str.lower], [mimetypes.guess_extension],
    [os.path.join], [os.path.abspath], [str(uuid.uuid4())] *)
Variable splitext_ext : string → string.
Variable lower : string → string.
Variable guess_extension : string → option string.
Variable path_join : string → string → string.
Variable abspath : string → string.
Variable uuid4 : nat → string.

(** [get_media_url] (whatsapp_client.py 34-63).  Both [except] clauses
    return [None]. *)
Definition get_media_url (self : WhatsAppClient) (media_id : string)
  : IO pyval :=
  let url := base_url self +:+ "/" +:+ media_id in
  try_io
    (send (HttpGet url (headers self));;
     media_info ← lift (requests_get url (headers self));
     media_url ← lift (of_outcome (dict_get media_info "url" VNone));
     if negb (truthy media_url) then mret VNone else mret media_url)
    (λ _, mret VNone).

(** The reply to the lookup of a media id carries a usable URL. *)
Definition url_found (self : WhatsAppClient) (media_id : string) (v : pyval)
  : Prop :=
  ∃ d, requests_get (base_url self +:+ "/" +:+ media_id) (headers self)
         = Done (VDict d) ∧
       assoc "url" d = Some v ∧ truthy v = true.

(** The clean-up of both [except] clauses (whatsapp_client.py 89-95):
    the file is removed if it exists; a failed removal is logged only. *)
Definition remove_partial (save_path : string) : IO unit := λ s,
  if decide (save_path ∈ files s) then
    if os_remove save_path then
      (Done tt, mkEnv (requests s) (files s ∖ {[save_path]}))
    else (Done tt, s)
  else (Done tt, s).

(** The body of the [try] (whatsapp_client.py 77-83): the file exists
    from the moment it was opened. *)
Definition stream_to_file (self : WhatsAppClient) (media_url : pyval)
  (save_path : string) : IO bool := λ s,
  match requests_stream media_url (headers self) with
  | Refused e => (Failed e, s)
  | Broken e => (Failed e, mkEnv (requests s) ({[save_path]} ∪ files s))
  | Complete => (Done true, mkEnv (requests s) ({[save_path]} ∪ files s))
  end.

(** [download_media] (whatsapp_client.py 65-106) *)
Definition download_media (self : WhatsAppClient) (media_url : pyval)
  (save_path : string) : IO bool :=
  try_io
    (send (HttpStream media_url (headers self));;
     stream_to_file self media_url save_path)
    (λ _, remove_partial save_path;; mret false).

Definition is_new_uuid (r : request) : bool :=
  match r with NewUuid => true | _ => false end.

Definition fresh_uuid : IO string := λ s,
  (Done (uuid4 (List.length (List.filter is_new_uuid (requests s)))),
   mkEnv (requests s ++ [NewUuid]) (files s)).

(** The extension of the saved file (whatsapp_client.py 135-149). *)
Definition choose_extension (mime_type original_filename : option string)
  : string :=
  if truthy (opt_str original_filename) then
    let ext := splitext_ext (default "" original_filename) in
    if truthy (VStr ext) then lower ext else ".bin"
  else if truthy (opt_str mime_type) then
    match guess_extension (default "" mime_type) with
    | Some guessed => if truthy (VStr guessed) then guessed else ".bin"
    | None => ".bin"
    end
  else ".bin".

(** [download_media_by_id] (whatsapp_client.py 108-159) *)
Definition download_media_by_id (self : WhatsAppClient)
  (media_id filename_prefix save_dir : string)
  (mime_type original_filename : option string) : IO pyval :=
  media_url ← get_media_url self media_id;
  if negb (truthy media_url) then mret VNone
  else
    let extension := choose_extension mime_type original_filename in
    u ← fresh_uuid;
    let filename := filename_prefix +:+ "_" +:+ u +:+ extension in
    let save_path := path_join save_dir filename in
    ok ← download_media self media_url save_path;
    match ok with
    | true => mret (VStr (abspath save_path))
    | false => mret VNone
    end.

End Download.
End WhatsappClient.

(** ** Further collaborators and states *)
Module Cases.

(** The legacy reply to a write: a dict with a ['taskUid'] key. *)
Definition add_legacy_dict (docs : list pyval) : outcome pyval :=
  Ok (VDict [("taskUid", VInt 12); ("status", VStr "enqueued")]).

(** A reply that carries no task id. *)
Definition add_without_task_id (docs : list pyval) : outcome pyval :=
  Ok (VDict [("status", VStr "enqueued")]).

(** A query from which no item name was extracted. *)
Definition query_without_item : QueryAnalysis :=
  mkAnalysis "query_product" None None None None.

Definition search_fails (query : pyval)
  (search_params : list (string * pyval)) : outcome pyval :=
  Raise (BackendError "meilisearch").

(** Four hits, the last of which is not a document. *)
Definition search_four_hits (query : pyval)
  (search_params : list (string * pyval)) : outcome pyval :=
  Ok (VDict [("hits", VList [VDict Sample.hit_a; VDict Sample.hit_b;
                             VDict Sample.hit_a; VStr "junk"])]).

(** A two-line description, with accented letters, whose first line has
    66 characters in 72 bytes. *)
Definition velo_description : string :=
  "Vélo électrique pliant très léger, idéal pour la ville et le métro"
  +:+ newline +:+ "Prix à débattre".

(** A state with that description and no item name. *)
Definition described_world : World :=
  mkWorld (<["description" := VStr velo_description]>
             (initial_state Sample.text_question)) [].

(** The state of a captioned photo once the classifier has run. *)
Definition analyzed_shoes : World :=
  snd (analyze_intent_node Sample.repr (Sample.llm_returns Sample.shoes_full)
         (Sample.prepared Sample.image_with_caption)).

(** A product that was given no id. *)
Definition product_without_id : list (string * pyval) :=
  [("name", VStr "Red bike")].

Definition no_id_world : World :=
  mkWorld (<["product_to_ingest" := VDict product_without_id]>
             (initial_state Sample.text_question)) [].

(** A product that is a string. *)
Definition string_product_world : World :=
  mkWorld (<["product_to_ingest" := VStr "Red bike"]>
             (initial_state Sample.text_question)) [].

(** A state built by hand, with a text and nothing else. *)
Definition bare_world : World :=
  mkWorld {["incoming_text" := VStr "hello"]} [].

(** A media client and an environment in which every request succeeds. *)
Definition media_client : WhatsappClient.WhatsAppClient :=
  WhatsappClient.mkClient "token" "https://graph.facebook.com/v19.0"
    [("Authorization", "Bearer token")].

Definition get_url (url : string) (headers : list (string * string))
  : Http.result pyval :=
  Http.Done (VDict [("url", VStr "https://lookaside.fbsbx.com/media");
                    ("mime_type", VStr "application/pdf")]).

Definition stream_complete (url : pyval) (headers : list (string * string))
  : WhatsappClient.stream_result := WhatsappClient.Complete.

Definition remove_succeeds (path : string) : bool := true.

(** [splitext] of a name without a dot. *)
Definition no_extension (name : string) : string := "".

Definition unchanged (s : string) : string := s.

Definition guess_pdf (mime_type : string) : option string := Some ".pdf".

Definition join (dir name : string) : string := dir +:+ "/" +:+ name.

Definition under_srv (path : string) : string := "/srv/" +:+ path.

Definition empty_env : Http.Env := Http.mkEnv [] ∅.

(** The download of a document named [invoice], for a given MIME type. *)
Definition download_invoice (mime_type : option string)
  : Http.result pyval * Http.Env :=
  WhatsappClient.download_media_by_id get_url stream_complete remove_succeeds
    no_extension unchanged guess_pdf join under_srv Sample.uuid media_client
    "1376223850343422" "256700123456_wamid1" "media_uploads" mime_type
    (Some "invoice") empty_env.

End Cases.

(** * Properties *)

Ltac map_look :=
  repeat first [ rewrite lookup_insert_eq
               | rewrite lookup_insert_ne by discriminate ].

Ltac split_ifs :=
  repeat match goal with
         | |- context [if ?b then _ else _] => destruct b eqn:?
         end.

(** ** Strings *)

Lemma str_app_assoc (a b c : string) : (a +:+ b) +:+ c = a +:+ b +:+ c.
Proof.
  induction a as [| x a IH]; [reflexivity |].
  change (String x ((a +:+ b) +:+ c) = String x (a +:+ b +:+ c)).
  by rewrite IH.
Qed.

Lemma substring_head (needle after : string) :
  substring needle (needle +:+ after).
Proof. by exists "", after. Qed.

Lemma substring_app_r (needle a b : string) :
  substring needle b → substring needle (a +:+ b).
Proof.
  intros (before & after & ->). exists (a +:+ before), after.
  by rewrite str_app_assoc.
Qed.

Section WorkflowFacts.

Variable py_repr : pyval → string.
Variable llm_invoke : string → outcome QueryAnalysis.
Variable add_documents : list pyval → outcome pyval.
Variable meili_search : pyval → list (string * pyval) → outcome pyval.
Variable uuid4 : nat → string.

(** ** The classification step *)

(** C7: with neither text nor a media id in the state, the classification
    step ends at once with [intent = 'error'] and a response, and the
    whole run of the graph leaves the call log as it found it: the
    language model is never invoked. *)
Theorem analyze_no_content (w : World) :
  truthy (field w "incoming_text") = false →
  truthy (field w "incoming_media_id") = false →
  ∃ w', analyze_intent_node py_repr llm_invoke w = (Ok tt, w') ∧
        app_graph_invoke py_repr llm_invoke add_documents meili_search uuid4 w
          = (Ok tt, w') ∧
        st w' !! "intent" = Some (VStr "error") ∧
        st w' !! "response" =
          Some (VStr "Sorry, I couldn't understand the message content. Please send text or media.") ∧
        truthy (field w' "response") = true ∧
        calls w' = calls w.
Proof.
  unfold field. intros Ht Hm.
  assert (Ha : analyze_intent_node py_repr llm_invoke w =
    (Ok tt, mkWorld
       (<["response" := VStr "Sorry, I couldn't understand the message content. Please send text or media."]>
          (<["intent" := VStr "error"]> (st w))) (calls w))).
  { unfold analyze_intent_node, mbind, Py_bind, state_get. cbn.
    rewrite Ht, Hm. reflexivity. }
  eexists. split; [exact Ha |].
  split.
  - unfold app_graph_invoke, mbind, Py_bind. rewrite Ha.
    unfold route, route_after_intent_analysis. cbn [st calls]. map_look.
    reflexivity.
  - cbn [st calls]. map_look. repeat split; done.
Qed.

(** ** The search step *)

(** C10: when the item name is missing or the intent is ['error'], the
    search node calls no backend, sets [search_results] to the empty
    list, keeps a response that is already there and writes the fallback
    message only when there is none; no other field changes. *)
Theorem search_guard (w : World) :
  truthy (field w "item_name") = false ∨
    eq_str (field w "intent") "error" = true →
  ∃ w', search_meilisearch_node py_repr meili_search w = (Ok tt, w') ∧
        calls w' = calls w ∧
        st w' !! "search_results" = Some (VList []) ∧
        truthy (field w' "response") = true ∧
        (truthy (field w "response") = true →
           st w' !! "response" = st w !! "response") ∧
        (truthy (field w "response") = false →
           st w' !! "response" =
             Some (VStr "Sorry, I couldn't determine what to search for.")) ∧
        (∀ k, k ≠ "response" → k ≠ "search_results" →
              st w' !! k = st w !! k).
Proof.
  unfold field. intros Hg.
  assert (Hc : negb (truthy (default VNone (st w !! "item_name")))
               || eq_str (default VNone (st w !! "intent")) "error" = true).
  { destruct Hg as [-> | ->]; [reflexivity | apply orb_true_r]. }
  unfold search_meilisearch_node, mbind, Py_bind, state_get. cbn.
  rewrite Hc. cbn.
  destruct (truthy (default VNone (st w !! "response"))) eqn:Hr; cbn;
    (eexists; split; [reflexivity |]); cbn; map_look;
    repeat split; try done;
    intros k Hk1 Hk2; rewrite ?lookup_insert_ne by done; reflexivity.
Qed.

(** ** The ingestion branch *)

(** C4: when both the item name and the description are missing, the
    structurer sets its response and stores [None] as the product; the
    writer that follows finds no product, submits nothing
    ([add_documents] is not called: the call log is unchanged) and
    leaves the task fields alone. *)
Theorem structurer_missing_fields (w : World) :
  truthy (field w "item_name") = false →
  truthy (field w "description") = false →
  ∃ w1 w2,
    structure_ingestion_data_node uuid4 w = (Ok tt, w1) ∧
    st w1 !! "response" =
      Some (VStr "Missing product name/description for ingestion.") ∧
    st w1 !! "product_to_ingest" = Some VNone ∧
    calls w1 = calls w ∧
    add_product_to_meili_node add_documents w1 = (Ok tt, w2) ∧
    calls w2 = calls w ∧
    st w2 !! "product_to_ingest" = Some VNone ∧
    truthy (field w2 "response") = true ∧
    st w2 !! "meili_task_id" = st w !! "meili_task_id" ∧
    st w2 !! "meili_task_status" = st w !! "meili_task_status".
Proof.
  unfold field. intros Hi Hd.
  unfold structure_ingestion_data_node, mbind, Py_bind, state_get,
    state_get_default. cbn.
  rewrite Hi, Hd. cbn.
  eexists. eexists. split; [reflexivity |]. cbn. map_look.
  do 3 (split; [reflexivity |]).
  unfold add_product_to_meili_node, mbind, Py_bind, state_get. cbn.
  map_look. cbn.
  split; [reflexivity |]. cbn. map_look.
  repeat split; done.
Qed.

(** The currency the structurer writes: the state's value when the key
    is there, even if that value is [None]; ["UGX"] only when the key is
    missing. *)
Lemma structurer_currency (w : World) :
  truthy (field w "item_name") = true →
  ∃ w' d, structure_ingestion_data_node uuid4 w = (Ok tt, w') ∧
          st w' !! "product_to_ingest" = Some (VDict d) ∧
          assoc "currency" d =
            Some (default (VStr "UGX") (st w !! "currency")).
Proof.
  unfold field. intros Hi.
  unfold structure_ingestion_data_node, mbind, Py_bind, state_get,
    state_get_default, fresh_uuid. cbn.
  rewrite Hi. cbn.
  eexists _, _. split; [reflexivity |]. cbn. map_look.
  split; reflexivity.
Qed.

(** C6: the writer on a structured product.  It submits the product
    once.  If the submission raises, the catalog apology is set and the
    two task fields keep the values they had.  If it returns, the reply
    is looked at for its task id: an object is asked for its [task_uid]
    attribute, a dict for its ['taskUid'] key.  With a task id, the id
    is stored, the status becomes ['enqueued'] and the response is left
    as it was; with an object or a dict that has none, and with a reply
    of any other kind, the task-id error is set and the two task fields
    keep the values they had. *)
Theorem writer_outcomes (w : World) (d : list (string * pyval)) (i : pyval) :
  st w !! "product_to_ingest" = Some (VDict d) →
  assoc "id" d = Some i →
  ∃ w', add_product_to_meili_node add_documents w = (Ok tt, w') ∧
        calls w' = (calls w ++ [AddDocuments [VDict d]])%list ∧
        match add_documents [VDict d] with
        | Raise _ =>
            st w' !! "response" =
              Some (VStr "Sorry, there was an error adding the product to the catalog.") ∧
            st w' !! "meili_task_id" = st w !! "meili_task_id" ∧
            st w' !! "meili_task_status" = st w !! "meili_task_status"
        | Ok (VObject attrs) =>
            match assoc "task_uid" attrs with
            | Some task_id =>
                st w' !! "meili_task_id" = Some task_id ∧
                st w' !! "meili_task_status" = Some (VStr "enqueued") ∧
                st w' !! "response" = st w !! "response"
            | None =>
                st w' !! "response" =
                  Some (VStr "Error: Failed to get task ID after submitting product.") ∧
                st w' !! "meili_task_id" = st w !! "meili_task_id" ∧
                st w' !! "meili_task_status" = st w !! "meili_task_status"
            end
        | Ok (VDict reply) =>
            match assoc "taskUid" reply with
            | Some task_id =>
                st w' !! "meili_task_id" = Some task_id ∧
                st w' !! "meili_task_status" = Some (VStr "enqueued") ∧
                st w' !! "response" = st w !! "response"
            | None =>
                st w' !! "response" =
                  Some (VStr "Error: Failed to get task ID after submitting product.") ∧
                st w' !! "meili_task_id" = st w !! "meili_task_id" ∧
                st w' !! "meili_task_status" = st w !! "meili_task_status"
            end
        | Ok _ =>
            st w' !! "response" =
              Some (VStr "Error: Failed to get task ID after submitting product.") ∧
            st w' !! "meili_task_id" = st w !! "meili_task_id" ∧
            st w' !! "meili_task_status" = st w !! "meili_task_status"
        end.
Proof.
  intros Hp Hid.
  unfold add_product_to_meili_node, mbind, Py_bind, state_get, try_except,
    lift_outcome, log_call, state_set.
  rewrite Hp. destruct d as [| kv d']; [discriminate Hid |].
  cbn [default from_option id truthy negb dict_get dict_item]. rewrite Hid.
  destruct (add_documents [VDict (kv :: d')]) as [task_info | e]; cbn.
  - destruct task_info as [| | | | | | reply | attrs]; cbn;
      [ | | | | | | destruct (assoc "taskUid" reply) as [task_id |]
                  | destruct (assoc "task_uid" attrs) as [task_id |] ];
      cbn; eexists; (split; [reflexivity |]); cbn; map_look;
      repeat split; done.
  - eexists; (split; [reflexivity |]); cbn; map_look; repeat split; done.
Qed.

(** C3: with a media id in the state, whatever analysis the language
    model returns, the classification step ends with
    [intent = 'ingest_product'] and routes to the structurer.  The model
    is called exactly once, on a prompt whose text is the caption, or
    the empty string when there is none, and its item name, price and
    currency are stored. *)
Theorem media_forces_ingest (w : World) (mid : string) (a : QueryAnalysis) :
  field w "incoming_media_id" = VStr mid →
  mid ≠ "" →
  let text_content :=
    if negb (truthy (field w "incoming_text")) then VStr ""
    else field w "incoming_text" in
  let prompt :=
    build_prompt py_repr (field w "incoming_message_type")
      (("present (ID: " +:+ mid) +:+ ")") text_content in
  llm_invoke prompt = Ok a →
  ∃ w', analyze_intent_node py_repr llm_invoke w = (Ok tt, w') ∧
        st w' !! "intent" = Some (VStr "ingest_product") ∧
        calls w' = (calls w ++ [LlmInvoke prompt])%list ∧
        st w' !! "item_name" = Some (opt_str (qa_item_name a)) ∧
        st w' !! "price" = Some (opt_float (qa_price a)) ∧
        st w' !! "currency" = Some (opt_str (qa_currency a)) ∧
        st w' !! "description" = Some text_content ∧
        st w' !! "location" = Some VNone ∧
        st w' !! "response" = st w !! "response" ∧
        fst (route_after_intent_analysis (st w')) = StructureIngestionData.
Proof.
  intros Hm Hne text_content prompt Hl. unfold field in *.
  assert (Ht : truthy (VStr mid) = true).
  { cbn. destruct mid; [done | reflexivity]. }
  unfold analyze_intent_node, llm_analysis, mbind, Py_bind, state_get,
    try_except, lift_outcome, log_call, state_set, state_item.
  rewrite Hm, Ht. rewrite andb_false_r.
  cbn [negb str_plus st calls fst snd].
  fold text_content. fold prompt. rewrite Hl.
  repeat (progress (cbn; map_look)).
  eexists. split; [reflexivity |]. cbn. map_look.
  repeat split; try done.
  unfold route_after_intent_analysis. map_look. reflexivity.
Qed.

(** When the call to the model raises instead, the step ends with
    [intent = 'error'] and the fixed apology, media or not. *)
Lemma media_classifier_failure (w : World) (mid : string) (e : exn) (n : pyval) :
  field w "incoming_media_id" = VStr mid →
  mid ≠ "" →
  st w !! "item_name" = Some n →
  (∀ prompt, llm_invoke prompt = Raise e) →
  ∃ w', analyze_intent_node py_repr llm_invoke w = (Ok tt, w') ∧
        st w' !! "intent" = Some (VStr "error") ∧
        st w' !! "response" =
          Some (VStr "Sorry, I had trouble analyzing the details of your request.").
Proof.
  intros Hm Hne Hn Hl. unfold field in *.
  assert (Ht : truthy (VStr mid) = true).
  { cbn. destruct mid; [done | reflexivity]. }
  unfold analyze_intent_node, llm_analysis, mbind, Py_bind, state_get,
    try_except, lift_outcome, log_call, state_set, state_item.
  rewrite Hm, Ht. rewrite andb_false_r.
  cbn [negb str_plus st calls fst snd]. rewrite Hl.
  repeat (progress (cbn [st calls]; map_look; rewrite ?Hn)).
  eexists. split; [reflexivity |]. cbn. map_look. split; reflexivity.
Qed.

(** ** The router *)

(** C8, as the code has it: the router writes no field but [response];
    it leaves a state whose response is already set, and a state it
    routes onward, untouched; on the greeting and unknown paths it ends
    the run without touching the state at all; on the two other terminal
    paths (a query with no item, an error or unexpected intent) it
    leaves a response set; and its decision depends on the intent and
    the item name only. *)
Theorem router_frame (s : gmap string pyval) :
  (∀ k, k ≠ "response" → snd (route_after_intent_analysis s) !! k = s !! k) ∧
  (truthy (resp s) = true → snd (route_after_intent_analysis s) = s) ∧
  (fst (route_after_intent_analysis s) ≠ END →
     snd (route_after_intent_analysis s) = s) ∧
  (eq_str (default VNone (s !! "intent")) "greeting" = true ∨
   eq_str (default VNone (s !! "intent")) "unknown" = true →
     route_after_intent_analysis s = (END, s)) ∧
  (fst (route_after_intent_analysis s) = END →
   eq_str (default VNone (s !! "intent")) "greeting" = false →
   eq_str (default VNone (s !! "intent")) "unknown" = false →
     truthy (resp (snd (route_after_intent_analysis s))) = true) ∧
  (∀ s2, s2 !! "intent" = s !! "intent" →
         s2 !! "item_name" = s !! "item_name" →
         fst (route_after_intent_analysis s2) =
           fst (route_after_intent_analysis s)).
Proof.
  unfold route_after_intent_analysis, resp, in_strs, query_intents,
    ingest_intents.
  cbn [existsb].
  repeat split.
  - intros k Hk. split_ifs; cbn; try done; by rewrite lookup_insert_ne.
  - intros Hr. rewrite Hr. cbn. split_ifs; done.
  - split_ifs; cbn; done.
  - intros [Hg | Hu].
    + destruct (default VNone (s !! "intent")) as [| | | |i| | |];
        try discriminate.
      cbn in Hg. apply String.eqb_eq in Hg. subst i. reflexivity.
    + destruct (default VNone (s !! "intent")) as [| | | |i| | |];
        try discriminate.
      cbn in Hu. apply String.eqb_eq in Hu. subst i. reflexivity.
  - intros He Hg Hu. rewrite Hg, Hu in *.
    split_ifs; cbn in *; try done; map_look;
      first [reflexivity | by apply negb_false_iff].
  - intros s2 Hi Hn. rewrite Hi, Hn. split_ifs; cbn in *; done.
Qed.

(** ** The search reply *)

Lemma comprehension_hits (hits : list (list (string * pyval))) :
  comprehension (format_hit py_repr) (VDict <$> hits)
    = Ok (hit_line py_repr <$> hits).
Proof.
  induction hits as [| d hits IH]; cbn; [reflexivity |].
  by rewrite IH.
Qed.

(** A line of the summary shows the name, the price, the currency and
    the vendor of its hit. *)
Lemma hit_line_fields (d : list (string * pyval)) :
  substring (py_str py_repr (default (VStr "N/A") (assoc "name" d)))
    (hit_line py_repr d) ∧
  substring (py_str py_repr (default (VInt 0) (assoc "price" d)))
    (hit_line py_repr d) ∧
  substring (py_str py_repr (default (VStr "") (assoc "currency" d)))
    (hit_line py_repr d) ∧
  substring (py_str py_repr (default (VStr "N/A") (assoc "vendor" d)))
    (hit_line py_repr d).
Proof.
  unfold hit_line. repeat split.
  - by apply substring_app_r, substring_head.
  - by do 3 apply substring_app_r; apply substring_head.
  - by do 5 apply substring_app_r; apply substring_head.
  - by do 7 apply substring_app_r; apply substring_head.
Qed.

(** C9: a search that the backend answers with a list of hits.  With no
    hit, the response is the not-found sentence, which contains the
    query and, when the state has a location, the location.  With hits,
    the response is the header followed by one line per hit for the
    first three hits, in the order received, each line showing name,
    price, currency and vendor. *)
Theorem search_response (w : World) (r : list (string * pyval))
    (hits : list (list (string * pyval))) (loc : pyval) :
  let query := field w "item_name" in
  let filters := field w "meili_filters" in
  let search_params := if truthy filters then [("filter", filters)] else [] in
  truthy query = true →
  eq_str (field w "intent") "error" = false →
  meili_search query search_params = Ok (VDict r) →
  default (VList []) (assoc "hits" r) = VList (VDict <$> hits) →
  st w !! "location" = Some loc →
  ∃ w' response,
    search_meilisearch_node py_repr meili_search w = (Ok tt, w') ∧
    st w' !! "response" = Some (VStr response) ∧
    st w' !! "search_results" = Some (VList (VDict <$> hits)) ∧
    calls w' = (calls w ++ [MeiliSearch query search_params])%list ∧
    match hits with
    | [] =>
        response =
          "I couldn't find any '" +:+ py_str py_repr query +:+ "'" +:+
          (if truthy loc then " in " +:+ py_str py_repr loc +:+ "." else ".") ∧
        substring (py_str py_repr query) response ∧
        (truthy loc = true → substring (py_str py_repr loc) response)
    | _ :: _ =>
        response =
          "Found these results for '" +:+ py_str py_repr query +:+ "'" +:+
          (if truthy loc then " in " +:+ py_str py_repr loc else "") +:+
          ":" +:+ newline +:+
          str_join newline (hit_line py_repr <$> take 3 hits) ∧
        length (take 3 hits) = min 3 (length hits) ∧
        (∀ i line, (hit_line py_repr <$> take 3 hits) !! i = Some line →
           ∃ h, hits !! i = Some h ∧ (i < 3)%nat ∧
                line = hit_line py_repr h ∧
                substring (py_str py_repr (default (VStr "N/A") (assoc "name" h))) line ∧
                substring (py_str py_repr (default (VInt 0) (assoc "price" h))) line ∧
                substring (py_str py_repr (default (VStr "") (assoc "currency" h))) line ∧
                substring (py_str py_repr (default (VStr "N/A") (assoc "vendor" h))) line)
    end.
Proof.
  intros query filters search_params Hq Hi Hs Hh Hl. unfold field in *.
  unfold search_meilisearch_node, mbind, Py_bind, state_get, try_except,
    lift_outcome, log_call, state_set, state_item.
  fold query filters. rewrite Hq, Hi.
  cbn [negb orb]. fold search_params. rewrite Hs.
  cbn [dict_get]. rewrite Hh.
  destruct hits as [| h hits].
  - cbn [fmap list_fmap py_len truthy negb st calls]. map_look. rewrite Hl.
    eexists _, _. split; [reflexivity |]. cbn [st calls]. map_look.
    repeat split.
    + by apply substring_app_r, substring_head.
    + intros ->. by do 4 apply substring_app_r; apply substring_head.
  - change (truthy (VList (VDict <$> h :: hits))) with true.
    cbn [py_len negb slice3 st calls]. rewrite <- fmap_take, comprehension_hits.
    cbn [st calls]. map_look. rewrite Hl.
    eexists _, _. split; [reflexivity |]. cbn [st calls]. map_look.
    split; [reflexivity |]. split; [reflexivity |]. split; [reflexivity |].
    split; [reflexivity |]. split; [apply length_take |].
    intros i line Hd. rewrite list_lookup_fmap in Hd.
    destruct (take 3 (h :: hits) !! i) as [x |] eqn:Hx; [| discriminate].
    apply lookup_take_Some in Hx as [Hx Hlt].
    cbn in Hd. injection Hd as <-.
    exists x. split; [exact Hx |]. split; [exact Hlt |].
    split; [reflexivity |]. apply hit_line_fields.
Qed.

End WorkflowFacts.

(** * The workflow on explicit messages *)

(** C1: a photo with a caption, a classifier that answers and a backend
    that accepts the write.  The run completes without an exception, the
    task is enqueued, no reply is sent, and the final [response] is still
    [None]: the successful ingestion path ends without a response. *)
Theorem successful_ingestion_has_no_response :
  fst Sample.ingestion_run = Ok tt ∧
  st (snd Sample.ingestion_run) !! "intent" = Some (VStr "ingest_product") ∧
  st (snd Sample.ingestion_run) !! "meili_task_id" = Some (VInt 7) ∧
  st (snd Sample.ingestion_run) !! "meili_task_status" = Some (VStr "enqueued") ∧
  st (snd Sample.ingestion_run) !! "response" = Some VNone ∧
  truthy (field (snd Sample.ingestion_run) "response") = false ∧
  existsb is_reply (calls (snd Sample.ingestion_run)) = false.
Proof. vm_compute. repeat split; reflexivity. Qed.

(** C2: a photo sent alone, from which the classifier extracts nothing.
    The structurer sets its missing-fields response; the writer, which
    runs next and submits nothing, replaces it with its own message. *)
Theorem writer_overwrites_structurer_response :
  st Sample.unnamed_photo_structured !! "response" =
    Some (VStr "Missing product name/description for ingestion.") ∧
  fst (add_product_to_meili_node Sample.add_task_object
         Sample.unnamed_photo_structured) = Ok tt ∧
  st (snd (add_product_to_meili_node Sample.add_task_object
             Sample.unnamed_photo_structured)) !! "response" =
    Some (VStr "Error: Could not structure product data for storage.") ∧
  st (snd Sample.unnamed_photo_run) !! "response" =
    Some (VStr "Error: Could not structure product data for storage.") ∧
  existsb is_add_documents (calls (snd Sample.unnamed_photo_run)) = false.
Proof. vm_compute. repeat split; reflexivity. Qed.

(** C5: a captioned photo for which the classifier returns no currency.
    The [currency] key is in the state from the start, with value [None],
    so [state.get('currency', "UGX")] returns [None] and the product is
    written with [currency = None], not ["UGX"]. *)
Theorem currency_default_not_applied :
  st (Sample.prepared Sample.image_with_caption) !! "currency" = Some VNone ∧
  fst Sample.no_currency_run = Ok tt ∧
  dict_item (field (snd Sample.no_currency_run) "product_to_ingest") "currency"
    = Ok VNone ∧
  dict_item (field (snd Sample.no_currency_run) "product_to_ingest") "name"
    = Ok (VStr "Nike shoes").
Proof. vm_compute. repeat split; reflexivity. Qed.

(** C8, the claim as stated fails: a state with [intent = 'greeting'] and
    no response ends at the router with the response still unset. *)
Lemma router_greeting_leaves_response_unset :
  fst (route_after_intent_analysis Sample.greeting_state) = END ∧
  Sample.greeting_state !! "response" = Some VNone ∧
  snd (route_after_intent_analysis Sample.greeting_state) !! "response"
    = Some VNone ∧
  truthy (resp (snd (route_after_intent_analysis Sample.greeting_state)))
    = false.
Proof. vm_compute. repeat split; reflexivity. Qed.

(** * The theorems at explicit inputs *)

(** C7 at a message with neither text nor media. *)
Lemma analyze_no_content_witness :
  truthy (field (Sample.prepared Sample.empty_message) "incoming_text") = false ∧
  truthy (field (Sample.prepared Sample.empty_message) "incoming_media_id") = false ∧
  ∃ w', app_graph_invoke Sample.repr Sample.llm_fails Sample.add_fails
          Sample.search_no_hits Sample.uuid (Sample.prepared Sample.empty_message)
          = (Ok tt, w') ∧
        st w' !! "intent" = Some (VStr "error") ∧
        truthy (field w' "response") = true ∧
        calls w' = calls (Sample.prepared Sample.empty_message).
Proof.
  split; [reflexivity |]. split; [reflexivity |].
  destruct (analyze_no_content Sample.repr Sample.llm_fails Sample.add_fails
              Sample.search_no_hits Sample.uuid
              (Sample.prepared Sample.empty_message) eq_refl eq_refl)
    as (w' & _ & Hrun & Hi & _ & Hr & Hc).
  exists w'. repeat split; assumption.
Defined.

(** C10 at a state with no item name. *)
Lemma search_guard_witness :
  truthy (field (Sample.prepared Sample.text_question) "item_name") = false ∧
  ∃ w', search_meilisearch_node Sample.repr Sample.search_two_hits
          (Sample.prepared Sample.text_question) = (Ok tt, w') ∧
        calls w' = calls (Sample.prepared Sample.text_question) ∧
        st w' !! "search_results" = Some (VList []) ∧
        truthy (field w' "response") = true.
Proof.
  split; [reflexivity |].
  destruct (search_guard Sample.repr Sample.search_two_hits
              (Sample.prepared Sample.text_question) (or_introl eq_refl))
    as (w' & Hrun & Hc & Hs & Hr & _).
  exists w'. repeat split; assumption.
Defined.

(** C4 at a photo sent alone from which nothing was extracted. *)
Lemma structurer_missing_fields_witness :
  truthy (field Sample.unnamed_photo_world "item_name") = false ∧
  truthy (field Sample.unnamed_photo_world "description") = false ∧
  ∃ w1 w2,
    structure_ingestion_data_node Sample.uuid Sample.unnamed_photo_world
      = (Ok tt, w1) ∧
    st w1 !! "product_to_ingest" = Some VNone ∧
    add_product_to_meili_node Sample.add_task_object w1 = (Ok tt, w2) ∧
    calls w2 = calls Sample.unnamed_photo_world.
Proof.
  split; [reflexivity |]. split; [reflexivity |].
  destruct (structurer_missing_fields Sample.add_task_object Sample.uuid
              Sample.unnamed_photo_world eq_refl eq_refl)
    as (w1 & w2 & H1 & _ & Hp & _ & H2 & Hc & _).
  exists w1, w2. repeat split; assumption.
Defined.

(** C6 at the structured product of a captioned photo, for each kind of
    reply: a task object, a legacy dict, a dict without task id, and an
    exception. *)
Lemma writer_outcomes_witness :
  st Sample.structured_world !! "product_to_ingest"
    = Some (VDict Sample.shoes_product) ∧
  (∃ w', add_product_to_meili_node Sample.add_task_object
           Sample.structured_world = (Ok tt, w') ∧
         st w' !! "meili_task_id" = Some (VInt 7) ∧
         st w' !! "meili_task_status" = Some (VStr "enqueued") ∧
         st w' !! "response" = Some VNone) ∧
  (∃ w', add_product_to_meili_node Cases.add_legacy_dict
           Sample.structured_world = (Ok tt, w') ∧
         st w' !! "meili_task_id" = Some (VInt 12) ∧
         st w' !! "meili_task_status" = Some (VStr "enqueued") ∧
         st w' !! "response" = Some VNone) ∧
  (∃ w', add_product_to_meili_node Cases.add_without_task_id
           Sample.structured_world = (Ok tt, w') ∧
         st w' !! "response" =
           Some (VStr "Error: Failed to get task ID after submitting product.") ∧
         st w' !! "meili_task_id" = Some VNone ∧
         st w' !! "meili_task_status" = Some VNone) ∧
  (∃ w', add_product_to_meili_node Sample.add_fails
           Sample.structured_world = (Ok tt, w') ∧
         st w' !! "response" =
           Some (VStr "Sorry, there was an error adding the product to the catalog.") ∧
         st w' !! "meili_task_id" = Some VNone ∧
         st w' !! "meili_task_status" = Some VNone).
Proof.
  assert (Hp : st Sample.structured_world !! "product_to_ingest"
               = Some (VDict Sample.shoes_product))
    by (vm_compute; reflexivity).
  split; [exact Hp |].
  split; [| split; [| split]].
  - destruct (writer_outcomes Sample.add_task_object Sample.structured_world
                Sample.shoes_product (VStr (Sample.uuid 0)) Hp eq_refl)
      as (w' & Hrun & _ & Hi & Hs & Hr).
    exists w'. split; [exact Hrun |]. split; [exact Hi |].
    split; [exact Hs |]. rewrite Hr. vm_compute. reflexivity.
  - destruct (writer_outcomes Cases.add_legacy_dict Sample.structured_world
                Sample.shoes_product (VStr (Sample.uuid 0)) Hp eq_refl)
      as (w' & Hrun & _ & Hi & Hs & Hr).
    exists w'. split; [exact Hrun |]. split; [exact Hi |].
    split; [exact Hs |]. rewrite Hr. vm_compute. reflexivity.
  - destruct (writer_outcomes Cases.add_without_task_id
                Sample.structured_world
                Sample.shoes_product (VStr (Sample.uuid 0)) Hp eq_refl)
      as (w' & Hrun & _ & Hr & Hi & Hs).
    exists w'. split; [exact Hrun |]. split; [exact Hr |].
    split; [rewrite Hi | rewrite Hs]; vm_compute; reflexivity.
  - destruct (writer_outcomes Sample.add_fails Sample.structured_world
                Sample.shoes_product (VStr (Sample.uuid 0)) Hp eq_refl)
      as (w' & Hrun & _ & Hr & Hi & Hs).
    exists w'. split; [exact Hrun |]. split; [exact Hr |].
    split; [rewrite Hi | rewrite Hs]; vm_compute; reflexivity.
Defined.

(** C3 at a photo sent alone, whatever the classifier says of it. *)
Lemma media_forces_ingest_witness :
  field (Sample.prepared Sample.image_alone) "incoming_media_id"
    = VStr "1376223850343422" ∧
  ∃ w', analyze_intent_node Sample.repr (Sample.llm_returns Sample.iphone_query)
          (Sample.prepared Sample.image_alone) = (Ok tt, w') ∧
        st w' !! "intent" = Some (VStr "ingest_product") ∧
        st w' !! "description" = Some (VStr "") ∧
        fst (route_after_intent_analysis (st w')) = StructureIngestionData.
Proof.
  split; [reflexivity |].
  destruct (media_forces_ingest Sample.repr (Sample.llm_returns Sample.iphone_query)
              (Sample.prepared Sample.image_alone) "1376223850343422"
              Sample.iphone_query eq_refl ltac:(discriminate) eq_refl)
    as (w' & Hrun & Hi & _ & _ & _ & _ & Hd & _ & _ & Hroute).
  exists w'. repeat split; assumption.
Defined.

(** C9 at a text question answered with two hits. *)
Lemma search_response_witness :
  truthy (field Sample.query_world "item_name") = true ∧
  ∃ w' response,
    search_meilisearch_node Sample.repr Sample.search_two_hits Sample.query_world
      = (Ok tt, w') ∧
    st w' !! "response" = Some (VStr response) ∧
    response =
      "Found these results for 'iphone':" +:+ newline +:+
      "- iPhone 12 (900000 UGX, Vendor: 256700111111)" +:+ newline +:+
      "- iPhone 13 (1200000 UGX, Vendor: 256700222222)".
Proof.
  split; [vm_compute; reflexivity |].
  destruct (search_response Sample.repr Sample.search_two_hits Sample.query_world
              [("hits", VList [VDict Sample.hit_a; VDict Sample.hit_b]);
               ("estimatedTotalHits", VInt 2);
               ("processingTimeMs", VInt 1)]
              [Sample.hit_a; Sample.hit_b] VNone
              ltac:(vm_compute; reflexivity) ltac:(vm_compute; reflexivity)
              ltac:(vm_compute; reflexivity) eq_refl
              ltac:(vm_compute; reflexivity))
    as (w' & response & Hrun & Hr & _ & _ & Hresp & _).
  exists w', response. split; [exact Hrun |]. split; [exact Hr |].
  rewrite Hresp. vm_compute. reflexivity.
Defined.

(** * Runs of the nodes, of the graph and of the handler *)

Ltac frame_keys fields :=
  let k := fresh "k" in let Hk := fresh "Hk" in
  intros k Hk; unfold fields in Hk;
  repeat (rewrite lookup_insert_ne;
          [| intros <-; apply Hk;
             repeat first [apply list_elem_of_here | apply list_elem_of_further]]);
  reflexivity.

Ltac run_node :=
  repeat (progress (cbn [st calls fst snd andb negb orb]; map_look)).

Section WorkflowRuns.

Variable py_repr : pyval → string.
Variable llm_invoke : string → outcome QueryAnalysis.
Variable add_documents : list pyval → outcome pyval.
Variable meili_search : pyval → list (string * pyval) → outcome pyval.
Variable uuid4 : nat → string.
Variable download_media : string → outcome (option string).

(** ** The search step, on any state *)

(** X1: whatever the state and whatever the backend does, the search
    node returns normally, leaves a response and a value in
    [search_results], calls the backend at most once, and changes no
    field other than [response] and [search_results]. *)
Theorem search_never_raises (w : World) :
  ∃ w', search_meilisearch_node py_repr meili_search w = (Ok tt, w') ∧
        truthy (field w' "response") = true ∧
        is_Some (st w' !! "search_results") ∧
        (calls w' = calls w ∨
         ∃ q p, calls w' = (calls w ++ [MeiliSearch q p])%list) ∧
        (∀ k, k ≠ "response" → k ≠ "search_results" →
              st w' !! k = st w !! k).
Proof.
  unfold field, search_meilisearch_node, mbind, Py_bind, state_get, try_except,
    lift_outcome, log_call, state_set, state_item, mret, Py_ret.
  repeat first
    [ progress map_look
    | progress cbn [st calls fst snd dict_get py_len slice3]
    | case_match ];
  simplify_eq;
  (eexists; split; [reflexivity |]); cbn [st calls]; map_look;
  (split; [first [ reflexivity | assumption | by apply negb_false_iff ] |]);
  (split; [by eexists |]);
  (split; [first [by left | right; by eexists _, _] |]);
  intros k Hk1 Hk2; rewrite ?lookup_insert_ne by done; reflexivity.
Qed.

(** X2: a search whose backend call raises, or returns something that is
    not a dict, ends with the empty result list and the fixed apology;
    the backend was called once. *)
Theorem search_backend_failure (w : World) :
  let query := field w "item_name" in
  let filters := field w "meili_filters" in
  let search_params := if truthy filters then [("filter", filters)] else [] in
  truthy query = true →
  eq_str (field w "intent") "error" = false →
  (∀ r, meili_search query search_params ≠ Ok (VDict r)) →
  ∃ w', search_meilisearch_node py_repr meili_search w = (Ok tt, w') ∧
        st w' !! "response" = Some (VStr "Sorry, there was an error searching.") ∧
        st w' !! "search_results" = Some (VList []) ∧
        calls w' = (calls w ++ [MeiliSearch query search_params])%list.
Proof.
  intros query filters search_params Hq Hi Hs. unfold field in *.
  unfold search_meilisearch_node, mbind, Py_bind, state_get, try_except,
    lift_outcome, log_call, state_set, state_item.
  fold query filters. rewrite Hq, Hi.
  cbn [negb orb]. fold search_params.
  destruct (meili_search query search_params) as [[| | | | | | r |] | e] eqn:Hm;
    try (by destruct (Hs r));
    cbn; (eexists; split; [reflexivity |]); cbn; map_look; done.
Qed.

Lemma comprehension_dicts (items : list pyval) :
  forallb is_dict items = true →
  ∃ lines, comprehension (format_hit py_repr) items = Ok lines ∧
           length lines = length items.
Proof.
  induction items as [| x items IH]; cbn; [by exists [] |].
  intros [Hx Hr]%andb_true_iff. destruct x; try discriminate.
  destruct (IH Hr) as (lines & -> & Hlen).
  eexists. split; [reflexivity |]. cbn. by rewrite Hlen.
Qed.

Lemma comprehension_not_dict (items : list pyval) :
  forallb is_dict items = false →
  ∃ e, comprehension (format_hit py_repr) items = Raise e.
Proof.
  induction items as [| x items IH]; cbn; [discriminate |].
  intros [Hx | Hr]%andb_false_iff.
  - destruct x; try discriminate; by eexists.
  - destruct (IH Hr) as (e & ->). destruct x; cbn; by eexists.
Qed.

(** X3: only the first three hits are looked at.  When each of them is a
    dict, the whole hit list is stored and the response is the header
    followed by one line per hit among the first three, whatever comes
    after them; when one of them is not a dict, the hits are dropped and
    the response is the search apology. *)
Theorem search_first_three (w : World) (r : list (string * pyval))
    (hits : list pyval) (loc : pyval) :
  let query := field w "item_name" in
  let filters := field w "meili_filters" in
  let search_params := if truthy filters then [("filter", filters)] else [] in
  truthy query = true →
  eq_str (field w "intent") "error" = false →
  meili_search query search_params = Ok (VDict r) →
  default (VList []) (assoc "hits" r) = VList hits →
  hits ≠ [] →
  st w !! "location" = Some loc →
  ∃ w', search_meilisearch_node py_repr meili_search w = (Ok tt, w') ∧
    if forallb is_dict (take 3 hits) then
      st w' !! "search_results" = Some (VList hits) ∧
      ∃ lines,
        comprehension (format_hit py_repr) (take 3 hits) = Ok lines ∧
        length lines = min 3 (length hits) ∧
        st w' !! "response" =
          Some (VStr ("Found these results for '" +:+ py_str py_repr query +:+ "'" +:+
                      (if truthy loc then " in " +:+ py_str py_repr loc else "") +:+
                      ":" +:+ newline +:+ str_join newline lines))
    else
      st w' !! "search_results" = Some (VList []) ∧
      st w' !! "response" = Some (VStr "Sorry, there was an error searching.").
Proof.
  intros query filters search_params Hq Hi Hs Hh Hne Hl. unfold field in *.
  unfold search_meilisearch_node, mbind, Py_bind, state_get, try_except,
    lift_outcome, log_call, state_set, state_item.
  fold query filters. rewrite Hq, Hi.
  cbn [negb orb]. fold search_params. rewrite Hs.
  cbn [dict_get]. rewrite Hh.
  destruct hits as [| h hits]; [done |].
  change (truthy (VList (h :: hits))) with true.
  cbn [py_len negb slice3 st calls].
  destruct (forallb is_dict (take 3 (h :: hits))) eqn:Hd.
  - destruct (comprehension_dicts _ Hd) as (lines & Hc & Hlen).
    rewrite Hc. cbn [st calls]. map_look. rewrite Hl.
    eexists. split; [reflexivity |]. cbn [st calls]. map_look.
    split; [reflexivity |]. exists lines. split; [reflexivity |].
    split; [| reflexivity]. by rewrite Hlen, length_take.
  - destruct (comprehension_not_dict _ Hd) as (e & Hc).
    rewrite Hc. cbn [st calls].
    eexists. split; [reflexivity |]. cbn [st calls]. map_look. done.
Qed.

(** ** The classification step never raises on a well-formed state *)

Lemma llm_analysis_runs (w : World) (mt mid txt : pyval) :
  is_Some (st w !! "item_name") →
  str_or_none mid →
  str_or_none txt →
  ∃ w' p, llm_analysis py_repr llm_invoke mt mid txt w = (Ok tt, w') ∧
    calls w' = (calls w ++ [LlmInvoke p])%list ∧
    (field w' "description" = field w "description" ∨
     str_or_none (field w' "description")) ∧
    (eq_str (field w' "intent") "greeting" = true ∨
     eq_str (field w' "intent") "unknown" = true →
       truthy (field w' "response") = true) ∧
    (∀ k, k ∉ analysis_fields → st w' !! k = st w !! k).
Proof.
  intros [n Hn] Hm Ht.
  unfold field, llm_analysis, mbind, Py_bind, try_except,
    lift_outcome, log_call, state_set, state_item, mret, Py_ret.
  destruct (truthy mid) eqn:Tm.
  - destruct Hm as [-> | [m ->]]; [discriminate |].
    cbn [str_plus st calls fst snd].
    destruct (llm_invoke _) as [[intent name loc price cur] | e].
    + cbn [qa_intent qa_item_name qa_location qa_price qa_currency].
      repeat (progress (cbn [st calls fst snd andb negb orb eq_str String.eqb
                               Ascii.eqb Bool.eqb]; map_look)).
      eexists _, _. split; [reflexivity |]. run_node.
      split; [reflexivity |].
      split; [right; exact Ht |].
      split; [intros [? | ?]; discriminate |].
      frame_keys analysis_fields.
    + run_node. rewrite Hn.
      eexists _, _. split; [reflexivity |]. run_node.
      split; [reflexivity |].
      split; [by left |].
      split; [intros [? | ?]; discriminate |].
      frame_keys analysis_fields.
  - cbn [st calls fst snd].
    destruct (llm_invoke _) as [[intent name loc price cur] | e].
    + cbn [qa_intent qa_item_name qa_location qa_price qa_currency].
      run_node. cbn [eq_str].
      destruct (String.eqb intent "query_product") eqn:Eq;
      destruct (String.eqb intent "ingest_product") eqn:Ei;
      destruct (String.eqb intent "greeting") eqn:Eg;
      destruct (String.eqb intent "unknown") eqn:Eu;
      try (apply String.eqb_eq in Eq; subst intent; discriminate);
      try (apply String.eqb_eq in Ei; subst intent; discriminate);
      try (apply String.eqb_eq in Eg; subst intent; discriminate);
      destruct (truthy (opt_str loc)) eqn:El;
      repeat (progress (cbn [st calls fst snd andb negb orb eq_str]; map_look;
                        rewrite ?Eq, ?Ei, ?Eg, ?Eu, ?El));
      (eexists _, _; split; [reflexivity |]); run_node;
      (split; [reflexivity |]);
      (split; [first [right; exact Ht | by left | right; by left] |]);
      (split; [cbn [eq_str from_option id]; rewrite ?Eg, ?Eu;
               first [ reflexivity | intros [? | ?]; discriminate ] |]);
      frame_keys analysis_fields.
    + run_node. rewrite Hn.
      eexists _, _. split; [reflexivity |]. run_node.
      split; [reflexivity |].
      split; [by left |].
      split; [intros [? | ?]; discriminate |].
      frame_keys analysis_fields.
Qed.

Lemma analyze_runs (w : World) :
  is_Some (st w !! "item_name") →
  str_or_none (field w "incoming_media_id") →
  str_or_none (field w "incoming_text") →
  str_or_none (field w "description") →
  ∃ w', analyze_intent_node py_repr llm_invoke w = (Ok tt, w') ∧
    ((calls w' = calls w ∧ eq_str (field w' "intent") "error" = true ∧
      truthy (field w' "response") = true) ∨
     ∃ p, calls w' = (calls w ++ [LlmInvoke p])%list) ∧
    str_or_none (field w' "description") ∧
    (eq_str (field w' "intent") "greeting" = true ∨
     eq_str (field w' "intent") "unknown" = true →
       truthy (field w' "response") = true) ∧
    (∀ k, k ∉ analysis_fields → st w' !! k = st w !! k).
Proof.
  intros Hn Hm Ht Hd.
  unfold analyze_intent_node, mbind, Py_bind, state_get.
  fold (field w "incoming_text") (field w "incoming_media_id")
    (field w "incoming_message_type") (field w "incoming_media_path").
  cbn [st calls fst snd].
  set (text := field w "incoming_text") in *.
  set (mid := field w "incoming_media_id") in *.
  assert (Hearly : ∀ msg : string, msg ≠ "" →
    ∃ w', (state_set "intent" (VStr "error") ≫= λ _, state_set "response" (VStr msg)) w
            = (Ok tt, w') ∧
      ((calls w' = calls w ∧ eq_str (field w' "intent") "error" = true ∧
        truthy (field w' "response") = true) ∨
       ∃ p, calls w' = (calls w ++ [LlmInvoke p])%list) ∧
      str_or_none (field w' "description") ∧
      (eq_str (field w' "intent") "greeting" = true ∨
       eq_str (field w' "intent") "unknown" = true →
         truthy (field w' "response") = true) ∧
      (∀ k, k ∉ analysis_fields → st w' !! k = st w !! k)).
  { intros msg Hmsg. unfold mbind, Py_bind, state_set, field.
    eexists. split; [reflexivity |]. run_node.
    assert (Htr : truthy (VStr msg) = true) by (by destruct msg).
    split; [left; by repeat split |].
    split; [exact Hd |].
    split; [by intros _ |].
    frame_keys analysis_fields. }
  assert (Hllm : ∀ txt, str_or_none txt → ∀ w0,
    st w0 = st w ∨ st w0 = <["intent" := VStr "ingest_product"]> (st w) →
    calls w0 = calls w →
    ∃ w', llm_analysis py_repr llm_invoke (field w "incoming_message_type") mid txt w0
            = (Ok tt, w') ∧
      ((calls w' = calls w ∧ eq_str (field w' "intent") "error" = true ∧
        truthy (field w' "response") = true) ∨
       ∃ p, calls w' = (calls w ++ [LlmInvoke p])%list) ∧
      str_or_none (field w' "description") ∧
      (eq_str (field w' "intent") "greeting" = true ∨
       eq_str (field w' "intent") "unknown" = true →
         truthy (field w' "response") = true) ∧
      (∀ k, k ∉ analysis_fields → st w' !! k = st w !! k)).
  { intros txt Htxt w0 Hst Hc.
    destruct (llm_analysis_runs w0 (field w "incoming_message_type") mid txt)
      as (w' & p & Hrun & Hcalls & Hdesc & Hresp & Hframe).
    - destruct Hst as [-> | ->]; [exact Hn |].
      by rewrite lookup_insert_ne.
    - exact Hm.
    - exact Htxt.
    - exists w'. split; [exact Hrun |].
      split; [right; exists p; by rewrite Hcalls, Hc |].
      split.
      { destruct Hdesc as [Hsame | Hnew]; [| exact Hnew].
        rewrite Hsame. unfold field.
        destruct Hst as [-> | ->]; [exact Hd |].
        by rewrite lookup_insert_ne. }
      split; [exact Hresp |].
      intros k Hk. rewrite Hframe by exact Hk.
      destruct Hst as [-> | ->]; [reflexivity |].
      rewrite lookup_insert_ne; [reflexivity |].
      intros <-. apply Hk. unfold analysis_fields.
      repeat first [apply list_elem_of_here | apply list_elem_of_further]. }
  destruct (truthy text) eqn:Tt; destruct (truthy mid) eqn:Tm; cbn [negb andb].
  - unfold state_set at 1. cbn [st calls].
    apply Hllm; [exact Ht | by right | reflexivity].
  - apply Hllm; [exact Ht | by left | reflexivity].
  - unfold state_set at 1. cbn [st calls].
    apply Hllm; [right; by eexists | by right | reflexivity].
  - by apply Hearly.
Qed.

(** ** The graph *)

Lemma route_cases (s : gmap string pyval) :
  match fst (route_after_intent_analysis s) with
  | SearchMeili =>
      snd (route_after_intent_analysis s) = s ∧
      eq_str (default VNone (s !! "intent")) "query_product" = true ∧
      truthy (default VNone (s !! "item_name")) = true
  | StructureIngestionData => snd (route_after_intent_analysis s) = s
  | END =>
      (eq_str (default VNone (s !! "intent")) "greeting" = true ∨
       eq_str (default VNone (s !! "intent")) "unknown" = true →
         truthy (resp s) = true) →
      truthy (resp (snd (route_after_intent_analysis s))) = true
  end.
Proof.
  unfold route_after_intent_analysis, resp, in_strs, query_intents,
    ingest_intents.
  cbn [existsb]. rewrite !orb_false_r.
  split_ifs; cbn [fst snd]; try done;
    try (intros H; apply H; by auto);
    intros _; map_look; first [reflexivity | by apply negb_false_iff].
Qed.

Lemma eq_str_query_not_error (v : pyval) :
  eq_str v "query_product" = true → eq_str v "error" = false.
Proof.
  destruct v; try done. cbn. intros ->%String.eqb_eq. reflexivity.
Qed.

Lemma search_runs (w : World) :
  truthy (field w "item_name") = true →
  eq_str (field w "intent") "error" = false →
  ∃ w' q p, search_meilisearch_node py_repr meili_search w = (Ok tt, w') ∧
        truthy (field w' "response") = true ∧
        calls w' = (calls w ++ [MeiliSearch q p])%list.
Proof.
  unfold field. intros Hq Hi.
  unfold search_meilisearch_node, mbind, Py_bind, state_get, try_except,
    lift_outcome, log_call, state_set, state_item, mret, Py_ret.
  rewrite Hq, Hi. cbn [negb orb].
  repeat first
    [ progress map_look
    | progress cbn [st calls fst snd dict_get py_len slice3]
    | case_match ];
  simplify_eq;
  (eexists _, _, _; split; [reflexivity |]); cbn [st calls]; map_look;
  (split; [first [ reflexivity | assumption | by apply negb_false_iff ] |]);
  reflexivity.
Qed.

Lemma structure_runs (w : World) :
  str_or_none (field w "description") →
  ∃ w', structure_ingestion_data_node uuid4 w = (Ok tt, w') ∧
    ((calls w' = calls w ∧ field w' "product_to_ingest" = VNone) ∨
     (calls w' = (calls w ++ [Uuid4])%list ∧
      ∃ d i, st w' !! "product_to_ingest" = Some (VDict d) ∧
             assoc "id" d = Some i)).
Proof.
  unfold field, structure_ingestion_data_node, mbind, Py_bind, state_get,
    state_get_default, lift_outcome, state_set, mret, Py_ret, fresh_uuid.
  intros [Hd | [s Hd]]; rewrite Hd;
  change (truthy VNone) with false; rewrite ?andb_false_r;
  repeat first
      [ progress map_look
      | progress cbn [st calls fst snd fallback_name negb andb]
      | case_match ];
    simplify_eq;
    (eexists; split; [reflexivity |]); cbn [st calls]; map_look;
    first [ by left | right; split; [reflexivity |]; by eexists _, _ ].
Qed.

Lemma add_runs_none (w : World) :
  field w "product_to_ingest" = VNone →
  ∃ w', add_product_to_meili_node add_documents w = (Ok tt, w') ∧
        calls w' = calls w ∧ truthy (field w' "response") = true.
Proof.
  unfold field, add_product_to_meili_node, mbind, Py_bind, state_get,
    lift_outcome, state_set.
  intros ->. cbn. eexists. split; [reflexivity |]. cbn. map_look. done.
Qed.

Lemma add_runs_dict (w : World) (d : list (string * pyval)) (i : pyval) :
  st w !! "product_to_ingest" = Some (VDict d) →
  assoc "id" d = Some i →
  ∃ w' docs, add_product_to_meili_node add_documents w = (Ok tt, w') ∧
        calls w' = (calls w ++ [AddDocuments docs])%list ∧
        (truthy (field w' "response") = true ∨
         st w' !! "meili_task_status" = Some (VStr "enqueued")).
Proof.
  intros Hp Hid.
  unfold field, add_product_to_meili_node, mbind, Py_bind, state_get,
    try_except, lift_outcome, log_call, state_set.
  rewrite Hp. destruct d as [| kv d']; [discriminate Hid |].
  cbn [default from_option id truthy negb dict_get dict_item]. rewrite Hid.
  destruct (add_documents [VDict (kv :: d')]) as [task_info | e]; cbn.
  - destruct (task_id_of task_info) as [task_id |]; cbn;
      eexists _, _; (split; [reflexivity |]); cbn; map_look;
      (split; [reflexivity |]); first [by left | by right].
  - eexists _, _; (split; [reflexivity |]); cbn; map_look;
      (split; [reflexivity |]); by left.
Qed.

Lemma graph_runs (w : World) :
  is_Some (st w !! "item_name") →
  str_or_none (field w "incoming_media_id") →
  str_or_none (field w "incoming_text") →
  str_or_none (field w "description") →
  ∃ w' l,
    app_graph_invoke py_repr llm_invoke add_documents meili_search uuid4 w
      = (Ok tt, w') ∧
    calls w' = (calls w ++ l)%list ∧
    graph_log l = true ∧
    (truthy (field w' "response") = true ∨
     st w' !! "meili_task_status" = Some (VStr "enqueued") ∨
     unanswered w').
Proof.
  intros Hn Hm Ht Hd.
  destruct (analyze_runs w Hn Hm Ht Hd)
    as (w1 & Hrun & Hcalls & Hdesc & Hresp & _).
  unfold app_graph_invoke, mbind, Py_bind. rewrite Hrun.
  unfold route.
  pose proof (route_cases (st w1)) as Hroute.
  destruct (route_after_intent_analysis (st w1)) as [next s2] eqn:Hr.
  cbn [fst snd] in Hroute |- *.
  destruct next.
  - destruct Hroute as (_ & Hq & Hi).
    destruct (search_runs w1 Hi (eq_str_query_not_error _ Hq))
      as (w' & q & p & Hs & Hr' & Hc).
    rewrite Hs.
    destruct Hcalls as [(_ & He & _) | (pr & Hcalls)].
    { unfold field in He. by rewrite (eq_str_query_not_error _ Hq) in He. }
    exists w', [LlmInvoke pr; MeiliSearch q p].
    split; [reflexivity |].
    split; [rewrite Hc, Hcalls; by rewrite <- app_assoc |].
    split; [reflexivity | by left].
  - assert (Hi : eq_str (field w1 "intent") "error" = false).
    { unfold route_after_intent_analysis, in_strs, query_intents,
        ingest_intents in Hr. cbn [existsb] in Hr. rewrite !orb_false_r in Hr.
      unfold field.
      destruct (default VNone (st w1 !! "intent")) as [| | | |i| | |];
        try done.
      cbn in Hr |- *.
      destruct (String.eqb_spec i "error") as [-> |]; [| done].
      cbn in Hr. by destruct (truthy _). }
    destruct Hcalls as [(_ & He & _) | (pr & Hcalls)].
    { by rewrite Hi in He. }
    destruct (structure_runs w1 Hdesc)
      as (w3 & Hs & [(Hc & Hp) | (Hc & d & i & Hp & Hid)]).
    + rewrite Hs.
      destruct (add_runs_none w3 Hp) as (w' & Ha & Hc' & Hr').
      exists w', [LlmInvoke pr].
      split; [exact Ha |].
      split; [by rewrite Hc', Hc, Hcalls |].
      split; [reflexivity | by left].
    + rewrite Hs.
      destruct (add_runs_dict w3 d i Hp Hid) as (w' & docs & Ha & Hc' & Hr').
      exists w', [LlmInvoke pr; Uuid4; AddDocuments docs].
      split; [exact Ha |].
      split; [rewrite Hc', Hc, Hcalls; by rewrite <- !app_assoc |].
      split; [reflexivity |].
      destruct Hr' as [Hr' | Hr']; [by left | right; by left].
  - assert (Hend : truthy (field w1 "response") = true ∨
                   st w1 !! "meili_task_status" = Some (VStr "enqueued") ∨
                   unanswered w1).
    { destruct (truthy (field w1 "response")) eqn:Tr; [by left |].
      right; right. unfold unanswered. rewrite Hr. cbn [fst snd].
      split; [reflexivity |]. split; [exact Tr |].
      apply Hroute. intros Hg. unfold resp.
      specialize (Hresp Hg). unfold field in Hresp, Tr. congruence. }
    destruct Hcalls as [(Hcalls & _) | (pr & Hcalls)].
    + exists w1, [].
      split; [reflexivity |].
      split; [by rewrite app_nil_r |].
      split; [reflexivity | exact Hend].
    + exists w1, [LlmInvoke pr].
      split; [reflexivity |].
      split; [exact Hcalls |].
      split; [reflexivity | exact Hend].
Qed.

(** ** The handler *)

Lemma prepare_runs (msg : Message) (w : World) :
  ∃ w', prepare_state download_media msg w = (Ok tt, w') ∧
    calls w' = (calls w ++ download_log msg)%list ∧
    st w' !! "item_name" = Some VNone ∧
    st w' !! "description" = Some VNone ∧
    st w' !! "response" = Some VNone ∧
    st w' !! "incoming_text" =
      Some (if truthy (opt_str (text msg)) then opt_str (text msg)
            else if truthy (opt_str (caption msg)) then opt_str (caption msg)
            else VNone) ∧
    match media_to_download msg with
    | None =>
        st w' !! "incoming_media_id" = Some VNone ∧
        st w' !! "incoming_media_path" = Some VNone ∧
        st w' !! "incoming_media_mime_type" = Some VNone ∧
        st w' !! "incoming_media_filename" = Some VNone
    | Some (m, is_document) =>
        st w' !! "incoming_media_id" = Some (VStr (media_id m)) ∧
        st w' !! "incoming_media_path" =
          Some (stored_path (download_media (media_id m))) ∧
        st w' !! "incoming_media_mime_type" = Some (VStr (mime_type m)) ∧
        st w' !! "incoming_media_filename" =
          Some (if is_document then opt_str (filename m) else VNone)
    end.
Proof.
  unfold prepare_state, download_log, stored_path, mbind, Py_bind, try_except,
    lift_outcome, log_call, state_set, mret, Py_ret.
  destruct (truthy (opt_str (text msg))) eqn:Tt;
    [| destruct (truthy (opt_str (caption msg))) eqn:Tc];
  (destruct (media_to_download msg) as [[m []] |];
   [ destruct (download_media (media_id m)) as [[p |] | e];
     [destruct (truthy (VStr p)) eqn:Tp | |] ..
   | ]);
  cbn [st calls fst snd opt_str]; rewrite ?Tp;
  (eexists; split; [reflexivity |]); cbn [st calls]; map_look;
  rewrite ?app_nil_r;
  repeat split; reflexivity.
Qed.

Lemma graph_log_no_reply (l : list call) :
  graph_log l = true → existsb is_reply l = false.
Proof.
  destruct l as [| [] [| [] [| [] [| ? ?]]]]; cbn; congruence.
Qed.

Lemma handler_runs (msg : Message) (w : World) :
  ∃ w' l,
    handle_incoming_message py_repr llm_invoke add_documents meili_search
      uuid4 download_media msg w = (Ok tt, w') ∧
    calls w' = (calls w ++ download_log msg ++ l)%list ∧
    graph_log l = true ∧
    (truthy (field w' "response") = true ∨
     st w' !! "meili_task_status" = Some (VStr "enqueued") ∨
     unanswered w').
Proof.
  destruct (prepare_runs msg w)
    as (w1 & Hp & Hc & Hn & Hd & _ & Ht & Hm).
  assert (Hg : ∃ w' l,
    app_graph_invoke py_repr llm_invoke add_documents meili_search uuid4 w1
      = (Ok tt, w') ∧
    calls w' = (calls w1 ++ l)%list ∧
    graph_log l = true ∧
    (truthy (field w' "response") = true ∨
     st w' !! "meili_task_status" = Some (VStr "enqueued") ∨
     unanswered w')).
  { apply graph_runs; unfold field.
    - by rewrite Hn.
    - destruct (media_to_download msg) as [[m ?] |].
      + destruct Hm as (-> & _). right. by eexists.
      + destruct Hm as (-> & _). by left.
    - rewrite Ht. destruct (text msg), (caption msg); cbn;
        repeat case_match; first [by left | right; by eexists].
    - rewrite Hd. by left. }
  destruct Hg as (w' & l & Hg & Hc' & Hl & Hr).
  exists w', l.
  unfold handle_incoming_message, mbind, Py_bind, try_except.
  rewrite Hp, Hg.
  split; [reflexivity |].
  split; [by rewrite Hc', Hc, <- app_assoc |].
  split; assumption.
Qed.

(** ** The graph, on a state as the handler prepares it *)

(** X4: on a state with an [item_name] key whose text, media id and
    description are each a string or [None], as the handler prepares it,
    a run of the graph never raises.  It makes at most three calls, none
    of them a reply: the language model at most once and then the
    catalog at most once, one search or one write preceded by the
    drawing of its id, never both.  It ends with a response, or with an
    enqueued write, or unanswered: ended by the router on a state
    without a response, the message the router wrote being lost. *)
Theorem graph_call_discipline (w : World) :
  is_Some (st w !! "item_name") →
  str_or_none (field w "incoming_media_id") →
  str_or_none (field w "incoming_text") →
  str_or_none (field w "description") →
  ∃ w' l,
    app_graph_invoke py_repr llm_invoke add_documents meili_search uuid4 w
      = (Ok tt, w') ∧
    calls w' = (calls w ++ l)%list ∧
    graph_log l = true ∧
    existsb is_reply l = false ∧
    (List.length l ≤ 3)%nat ∧
    (truthy (field w' "response") = true ∨
     st w' !! "meili_task_status" = Some (VStr "enqueued") ∨
     unanswered w').
Proof.
  intros Hn Hm Ht Hd.
  destruct (graph_runs w Hn Hm Ht Hd) as (w' & l & Hrun & Hc & Hl & Hr).
  exists w', l. split; [exact Hrun |]. split; [exact Hc |].
  split; [exact Hl |]. split; [by apply graph_log_no_reply |].
  split; [| exact Hr].
  destruct l as [| [] [| [] [| [] [| ? ?]]]]; cbn in *;
    first [lia | discriminate].
Qed.

(** X5: what the handler puts in the state before the graph runs.  It
    never raises, whatever the download does.  The text is the body,
    else the caption, else [None].  With a media part, its id and MIME
    type are stored even when the download fails, the path only when
    the download returned one, and the file name only for a document;
    the download is tried once. *)
Theorem prepare_state_records_message (msg : Message) (w : World) :
  ∃ w', prepare_state download_media msg w = (Ok tt, w') ∧
    calls w' = (calls w ++ download_log msg)%list ∧
    st w' !! "incoming_text" =
      Some (if truthy (opt_str (text msg)) then opt_str (text msg)
            else if truthy (opt_str (caption msg)) then opt_str (caption msg)
            else VNone) ∧
    match media_to_download msg with
    | None =>
        st w' !! "incoming_media_id" = Some VNone ∧
        st w' !! "incoming_media_path" = Some VNone ∧
        st w' !! "incoming_media_mime_type" = Some VNone ∧
        st w' !! "incoming_media_filename" = Some VNone
    | Some (m, is_document) =>
        st w' !! "incoming_media_id" = Some (VStr (media_id m)) ∧
        st w' !! "incoming_media_path" =
          Some (stored_path (download_media (media_id m))) ∧
        st w' !! "incoming_media_mime_type" = Some (VStr (mime_type m)) ∧
        st w' !! "incoming_media_filename" =
          Some (if is_document then opt_str (filename m) else VNone)
    end.
Proof.
  destruct (prepare_runs msg w) as (w' & Hp & Hc & _ & _ & _ & Ht & Hm).
  exists w'. repeat split; assumption.
Qed.

(** X6: for every message and every behaviour of the language model, of
    the catalog and of the download, the handler returns normally and
    the graph does not raise, so the fallback apology is never sent: no
    reply leaves the handler at all.  The run ends with a response in
    the state, or with an enqueued write, or unanswered: ended by the
    router on a state without a response, the message the router wrote
    being lost. *)
Theorem handler_never_replies (msg : Message) (w : World) :
  ∃ w' l,
    handle_incoming_message py_repr llm_invoke add_documents meili_search
      uuid4 download_media msg w = (Ok tt, w') ∧
    calls w' = (calls w ++ download_log msg ++ l)%list ∧
    graph_log l = true ∧
    existsb is_reply (download_log msg ++ l) = false ∧
    (truthy (field w' "response") = true ∨
     st w' !! "meili_task_status" = Some (VStr "enqueued") ∨
     unanswered w').
Proof.
  destruct (handler_runs msg w) as (w' & l & Hrun & Hc & Hl & Hr).
  exists w', l. repeat split; try assumption.
  rewrite existsb_app, (graph_log_no_reply l Hl), orb_false_r.
  unfold download_log. by destruct (media_to_download msg) as [[? ?] |].
Qed.

End WorkflowRuns.

(** * The structurer, the writer and the router on any state *)

Lemma str_take_len (n : nat) (s : string) :
  str_len (str_take n s) = Nat.min n (str_len s).
Proof.
  revert n. induction s as [| c s IH]; intros n; cbn [str_take str_len].
  - by rewrite Nat.min_0_r.
  - destruct (is_continuation c) eqn:Hc; cbn [str_len]; rewrite ?Hc.
    + apply IH.
    + destruct n as [| n]; cbn [str_len]; rewrite ?Hc; [reflexivity |].
      rewrite IH. reflexivity.
Qed.

(** A slice ends between two characters. *)
Lemma str_take_prefix (n : nat) (s : string) :
  ∃ rest, s = str_take n s +:+ rest ∧
          ∀ c r, rest = String c r → is_continuation c = false.
Proof.
  revert n. induction s as [| c s IH]; intros n; cbn [str_take].
  - exists "". split; [reflexivity | discriminate].
  - destruct (is_continuation c) eqn:Hc.
    + destruct (IH n) as (rest & Hr & Hb). exists rest. split; [| exact Hb].
      change (String c s = String c (str_take n s +:+ rest)). by rewrite <- Hr.
    + destruct n as [| n].
      * exists (String c s). split; [reflexivity |].
        intros c' r [= <- _]. exact Hc.
      * destruct (IH n) as (rest & Hr & Hb). exists rest.
        split; [| exact Hb].
        change (String c s = String c (str_take n s +:+ rest)).
        by rewrite <- Hr.
Qed.

Lemma first_line_prefix (s : string) :
  ∃ rest, s = first_line s +:+ rest ∧
          ∀ c r, rest = String c r → c = "010"%char.
Proof.
  induction s as [| c s (rest & Hr & Hb)]; cbn [first_line].
  - exists "". split; [reflexivity | discriminate].
  - destruct (Ascii.eqb_spec c "010") as [-> | Hc].
    + exists (String "010" s). split; [reflexivity |].
      by intros c' r [= <- _].
    + exists rest. split; [| exact Hb].
      change (String c s = String c (first_line s +:+ rest)).
      by rewrite <- Hr.
Qed.

Lemma first_line_no_newline (s : string) :
  ¬ In "010"%char (list_ascii_of_string (first_line s)).
Proof.
  induction s as [| c s IH]; cbn; [tauto |].
  destruct (Ascii.eqb_spec c "010"); cbn; [tauto |].
  intros [-> | H]; [done | by apply IH].
Qed.

Lemma str_take_In (n : nat) (s : string) (c : ascii) :
  In c (list_ascii_of_string (str_take n s)) → In c (list_ascii_of_string s).
Proof.
  revert n. induction s as [| x s IH]; intros n; cbn [str_take]; [done |].
  destruct (is_continuation x).
  - cbn. intros [-> | H]; [by left | right; by apply (IH n)].
  - destruct n as [| n]; cbn; [tauto |].
    intros [-> | H]; [by left | right; by apply (IH n)].
Qed.

Section NodeFacts.

Variable py_repr : pyval → string.
Variable llm_invoke : string → outcome QueryAnalysis.
Variable add_documents : list pyval → outcome pyval.
Variable meili_search : pyval → list (string * pyval) → outcome pyval.
Variable uuid4 : nat → string.

(** X7: when no item name was extracted and the description is a
    non-empty string, the product is named after the description: its
    first line, cut to 50 characters.  That name has the first 50
    characters of the line, or all of them when the line is shorter; it
    is a prefix of the description that ends between two characters,
    never inside one; it has no line break; and it is empty exactly
    when the description starts with a line break. *)
Theorem structurer_fallback_name (w : World) (s : string) :
  truthy (field w "item_name") = false →
  field w "description" = VStr s →
  s ≠ "" →
  ∃ w' d name,
    structure_ingestion_data_node uuid4 w = (Ok tt, w') ∧
    st w' !! "product_to_ingest" = Some (VDict d) ∧
    assoc "name" d = Some (VStr name) ∧
    assoc "description" d = Some (VStr s) ∧
    name = str_take 50 (first_line s) ∧
    str_len name = Nat.min 50 (str_len (first_line s)) ∧
    (∃ rest, s = name +:+ rest ∧
             ∀ c r, rest = String c r → is_continuation c = false) ∧
    ¬ In "010"%char (list_ascii_of_string name) ∧
    (name = "" ↔ ∃ rest, s = newline +:+ rest).
Proof.
  unfold field. intros Hi Hd Hs.
  assert (Ht : truthy (VStr s) = true) by (by destruct s).
  unfold structure_ingestion_data_node, mbind, Py_bind, state_get,
    state_get_default, fresh_uuid, lift_outcome, state_set.
  cbn [st calls fst snd]. rewrite Hi, Hd, Ht. cbn [negb andb fallback_name].
  unfold py_or. rewrite Ht.
  eexists _, _, _. split; [reflexivity |]. cbn [st calls]. map_look.
  split; [reflexivity |]. split; [reflexivity |]. split; [reflexivity |].
  split; [reflexivity |]. split; [apply str_take_len |].
  split.
  { destruct (first_line_prefix s) as (r1 & H1 & B1).
    destruct (str_take_prefix 50 (first_line s)) as (r2 & H2 & B2).
    exists (r2 +:+ r1). split.
    - rewrite <- str_app_assoc, <- H2. exact H1.
    - intros c r Hr. destruct r2 as [| c2 r2].
      + rewrite (B1 c r Hr). reflexivity.
      + injection Hr as <- _. by apply (B2 c2 r2). }
  split.
  { intros H%str_take_In. by apply (first_line_no_newline s). }
  destruct s as [| c s]; [done |]. cbn [first_line].
  destruct (Ascii.eqb_spec c "010") as [-> | Hc].
  - cbn [str_take]. split; [intros _; by exists s | done].
  - cbn [str_take].
    split; [by destruct (is_continuation c) |].
    intros [rest Hr]. injection Hr as -> _. done.
Qed.

(** X8: whenever there is an item name, or a non-empty description to
    fall back on, the structurer completes; it draws one id and writes
    [product_to_ingest] and nothing else.  The product has the eight
    keys of a catalog document: the id just drawn, the name, the
    description or the empty string, the price, the currency, the
    category ['Unknown'], the sender as vendor and the media path. *)
Theorem structurer_builds_product (w : World) :
  truthy (field w "item_name") = true ∨
    (∃ s, field w "description" = VStr s ∧ s ≠ "") →
  ∃ w' d name,
    structure_ingestion_data_node uuid4 w = (Ok tt, w') ∧
    st w' = <["product_to_ingest" := VDict d]> (st w) ∧
    calls w' = (calls w ++ [Uuid4])%list ∧
    d.*1 = product_keys ∧
    assoc "id" d =
      Some (VStr (uuid4 (List.length (List.filter is_uuid4 (calls w))))) ∧
    assoc "name" d = Some name ∧
    (truthy (field w "item_name") = true → name = field w "item_name") ∧
    assoc "description" d = Some (py_or (field w "description") (VStr "")) ∧
    assoc "price" d = Some (field w "price") ∧
    assoc "currency" d = Some (default (VStr "UGX") (st w !! "currency")) ∧
    assoc "category" d = Some (VStr "Unknown") ∧
    assoc "vendor" d = Some (field w "sender_id") ∧
    assoc "media_path" d = Some (field w "incoming_media_path").
Proof.
  unfold field. intros H.
  unfold structure_ingestion_data_node, mbind, Py_bind, state_get,
    state_get_default, fresh_uuid, lift_outcome, state_set, mret, Py_ret.
  cbn [st calls fst snd].
  destruct (truthy (default VNone (st w !! "item_name"))) eqn:Hi.
  - cbn [negb andb].
    eexists _, _, _. split; [reflexivity |]. cbn [st calls].
    repeat split; reflexivity.
  - destruct H as [H | (s & Hd & Hs)]; [discriminate |].
    assert (Ht : truthy (VStr s) = true) by (by destruct s).
    rewrite Hd, Ht. cbn [negb andb fallback_name].
    eexists _, _, _. split; [reflexivity |]. cbn [st calls].
    repeat split; try reflexivity. discriminate.
Qed.

(** X9: a product without an ['id'] key is not submitted: the writer
    fails inside its [try] before the backend is called, sets the
    catalog apology and changes nothing else. *)
Theorem writer_without_id (w : World) (d : list (string * pyval)) :
  st w !! "product_to_ingest" = Some (VDict d) →
  d ≠ [] →
  assoc "id" d = None →
  ∃ w', add_product_to_meili_node add_documents w = (Ok tt, w') ∧
        calls w' = calls w ∧
        st w' = <["response" := VStr "Sorry, there was an error adding the product to the catalog."]> (st w).
Proof.
  intros Hp Hne Hid.
  unfold add_product_to_meili_node, mbind, Py_bind, state_get, try_except,
    lift_outcome, log_call, state_set.
  rewrite Hp. destruct d as [| kv d']; [done |].
  cbn [default from_option id truthy negb dict_get dict_item]. rewrite Hid.
  cbn. eexists. split; [reflexivity |]. done.
Qed.

(** X10: the writer raises exactly when the product is set but is not a
    dict: then an [AttributeError] leaves it before its [try] block,
    with the state and the call log untouched.  With no product, or
    with a product that is a dict, it returns normally whatever the
    backend does. *)
Theorem writer_rejects_non_dict (w : World) :
  (truthy (field w "product_to_ingest") = true →
   is_dict (field w "product_to_ingest") = false →
   add_product_to_meili_node add_documents w = (Raise AttributeError, w)) ∧
  (truthy (field w "product_to_ingest") = false ∨
   is_dict (field w "product_to_ingest") = true →
   ∃ w', add_product_to_meili_node add_documents w = (Ok tt, w')).
Proof.
  unfold field. split.
  - intros Ht Hd.
    unfold add_product_to_meili_node, mbind, Py_bind, state_get, lift_outcome.
    cbn [st calls fst snd]. rewrite Ht.
    by destruct (default VNone (st w !! "product_to_ingest")).
  - intros H.
    unfold add_product_to_meili_node, mbind, Py_bind, state_get, try_except,
      lift_outcome, log_call, state_set, mret, Py_ret.
    cbn [st calls fst snd].
    destruct (truthy (default VNone (st w !! "product_to_ingest"))) eqn:Ht.
    + destruct H as [H | H]; [discriminate |].
      destruct (default VNone (st w !! "product_to_ingest"))
        as [| | | | | | d |]; try discriminate.
      cbn [negb dict_get dict_item].
      destruct (assoc "id" d); [| by eexists].
      cbn [st calls].
      destruct (add_documents [VDict d]) as [task_info | e]; [| by eexists].
      destruct (task_id_of task_info); by eexists.
    + cbn [negb]. by eexists.
Qed.

(** ** The classification of a message *)

(** X13: a text message without media, classified without error.  The
    model is called once, on a prompt that says no media is present; its
    intent, item name, price and currency are stored as returned.  The
    location is kept only for a query, the text becomes the description
    only for an ingestion, a vendor filter is built only for a query
    with a location, and a response is written only for a greeting and
    for an unknown intent. *)
Theorem classify_text_only (w : World) (a : QueryAnalysis) :
  truthy (field w "incoming_media_id") = false →
  truthy (field w "incoming_text") = true →
  let txt := field w "incoming_text" in
  let prompt :=
    build_prompt py_repr (field w "incoming_message_type") "not present" txt in
  llm_invoke prompt = Ok a →
  ∃ w', analyze_intent_node py_repr llm_invoke w = (Ok tt, w') ∧
    calls w' = (calls w ++ [LlmInvoke prompt])%list ∧
    st w' !! "intent" = Some (VStr (qa_intent a)) ∧
    st w' !! "item_name" = Some (opt_str (qa_item_name a)) ∧
    st w' !! "price" = Some (opt_float (qa_price a)) ∧
    st w' !! "currency" = Some (opt_str (qa_currency a)) ∧
    st w' !! "location" =
      Some (if String.eqb (qa_intent a) "query_product"
            then opt_str (qa_location a) else VNone) ∧
    st w' !! "description" =
      Some (if String.eqb (qa_intent a) "ingest_product" then txt else VNone) ∧
    st w' !! "meili_filters" =
      Some (if String.eqb (qa_intent a) "query_product" &&
               truthy (opt_str (qa_location a))
            then VStr ("vendor = '" +:+ py_str py_repr (opt_str (qa_location a)) +:+ "'")
            else VNone) ∧
    st w' !! "response" =
      (if String.eqb (qa_intent a) "greeting"
       then Some (VStr "Hello there! How can I help you?")
       else if String.eqb (qa_intent a) "unknown"
       then Some (VStr "Sorry, I'm not sure how to help with that. I can search for products or add new ones if you provide details.")
       else st w !! "response").
Proof.
  intros Tm Tt txt prompt Hl. unfold field in *.
  unfold analyze_intent_node, llm_analysis, mbind, Py_bind, state_get,
    try_except, lift_outcome, log_call, state_set, state_item, mret, Py_ret.
  cbn [st calls fst snd]. rewrite Tm, Tt.
  cbn [negb andb st calls fst snd]. fold txt. fold prompt. rewrite Hl.
  destruct a as [intent name loc price cur].
  cbn [qa_intent qa_item_name qa_location qa_price qa_currency].
  run_node. cbn [eq_str].
  destruct (String.eqb intent "query_product") eqn:Eq;
  destruct (String.eqb intent "ingest_product") eqn:Ei;
  destruct (String.eqb intent "greeting") eqn:Eg;
  destruct (String.eqb intent "unknown") eqn:Eu;
  try (apply String.eqb_eq in Eq; subst intent; discriminate);
  try (apply String.eqb_eq in Ei; subst intent; discriminate);
  try (apply String.eqb_eq in Eg; subst intent; discriminate);
  destruct (truthy (opt_str loc)) eqn:El;
  repeat (progress (cbn [st calls fst snd andb negb orb eq_str]; map_look;
                    rewrite ?Eq, ?Ei, ?Eg, ?Eu, ?El));
  (eexists; split; [reflexivity |]); run_node;
  repeat split; reflexivity.
Qed.

(** X14: when the call to the language model raises, with text or
    media in the state, the classification step catches the exception;
    the whole run ends after that one call with [intent = 'error'] and
    the analysis apology, no catalog call is made, and no field other
    than [intent] and [response] changes. *)
Theorem classifier_failure_ends_run (w : World) (n : pyval) :
  st w !! "item_name" = Some n →
  str_or_none (field w "incoming_media_id") →
  truthy (field w "incoming_text") = true ∨
    truthy (field w "incoming_media_id") = true →
  (∀ prompt, ∃ e, llm_invoke prompt = Raise e) →
  ∃ w' prompt,
    analyze_intent_node py_repr llm_invoke w = (Ok tt, w') ∧
    app_graph_invoke py_repr llm_invoke add_documents meili_search uuid4 w
      = (Ok tt, w') ∧
    calls w' = (calls w ++ [LlmInvoke prompt])%list ∧
    st w' !! "intent" = Some (VStr "error") ∧
    st w' !! "response" =
      Some (VStr "Sorry, I had trouble analyzing the details of your request.") ∧
    (∀ k, k ≠ "intent" → k ≠ "response" → st w' !! k = st w !! k).
Proof.
  intros Hn Hm Hc Hl. unfold field in *.
  assert (Ha : ∃ w' prompt,
    analyze_intent_node py_repr llm_invoke w = (Ok tt, w') ∧
    calls w' = (calls w ++ [LlmInvoke prompt])%list ∧
    st w' !! "intent" = Some (VStr "error") ∧
    st w' !! "response" =
      Some (VStr "Sorry, I had trouble analyzing the details of your request.") ∧
    (∀ k, k ≠ "intent" → k ≠ "response" → st w' !! k = st w !! k)).
  { unfold analyze_intent_node, llm_analysis, mbind, Py_bind, state_get,
      try_except, lift_outcome, log_call, state_set, state_item, mret, Py_ret.
    cbn [st calls fst snd].
    destruct (truthy (default VNone (st w !! "incoming_media_id"))) eqn:Tm.
    - destruct Hm as [Hm | [m Hm]]; rewrite Hm in *; [discriminate |].
      rewrite andb_false_r. cbn [negb str_plus st calls fst snd].
      match goal with |- context [llm_invoke ?p] =>
        destruct (Hl p) as [e He]; rewrite He end.
      run_node. rewrite Hn.
      eexists _, _. split; [reflexivity |]. run_node.
      repeat split; try reflexivity.
      intros k H1 H2. by rewrite !lookup_insert_ne.
    - destruct Hc as [Tt | ?]; [| discriminate]. rewrite Tt.
      cbn [negb andb st calls fst snd].
      match goal with |- context [llm_invoke ?p] =>
        destruct (Hl p) as [e He]; rewrite He end.
      run_node. rewrite Hn.
      eexists _, _. split; [reflexivity |]. run_node.
      repeat split; try reflexivity.
      intros k H1 H2. by rewrite !lookup_insert_ne. }
  destruct Ha as (w' & prompt & Ha & Hcalls & Hi & Hr & Hf).
  exists w', prompt. split; [exact Ha |].
  split; [| by repeat split].
  unfold app_graph_invoke, mbind, Py_bind. rewrite Ha.
  unfold route, route_after_intent_analysis. rewrite Hi, Hr. cbn.
  by destruct w'.
Qed.

(** X15: the same failure on a state that has no [item_name] key: the
    error response is written, but the log line after the [try] block
    reads [state['item_name']] and a [KeyError] leaves the node and the
    graph. *)
Theorem classifier_failure_missing_key (w : World) :
  st w !! "item_name" = None →
  str_or_none (field w "incoming_media_id") →
  truthy (field w "incoming_text") = true ∨
    truthy (field w "incoming_media_id") = true →
  (∀ prompt, ∃ e, llm_invoke prompt = Raise e) →
  ∃ w',
    analyze_intent_node py_repr llm_invoke w = (Raise (KeyError "item_name"), w') ∧
    app_graph_invoke py_repr llm_invoke add_documents meili_search uuid4 w
      = (Raise (KeyError "item_name"), w') ∧
    st w' !! "intent" = Some (VStr "error") ∧
    st w' !! "response" =
      Some (VStr "Sorry, I had trouble analyzing the details of your request.").
Proof.
  intros Hn Hm Hc Hl. unfold field in *.
  assert (Ha : ∃ w',
    analyze_intent_node py_repr llm_invoke w = (Raise (KeyError "item_name"), w') ∧
    st w' !! "intent" = Some (VStr "error") ∧
    st w' !! "response" =
      Some (VStr "Sorry, I had trouble analyzing the details of your request.")).
  { unfold analyze_intent_node, llm_analysis, mbind, Py_bind, state_get,
      try_except, lift_outcome, log_call, state_set, state_item, mret, Py_ret.
    cbn [st calls fst snd].
    destruct (truthy (default VNone (st w !! "incoming_media_id"))) eqn:Tm.
    - destruct Hm as [Hm | [m Hm]]; rewrite Hm in *; [discriminate |].
      rewrite andb_false_r. cbn [negb str_plus st calls fst snd].
      match goal with |- context [llm_invoke ?p] =>
        destruct (Hl p) as [e He]; rewrite He end.
      run_node. rewrite Hn.
      eexists. split; [reflexivity |]. run_node. done.
    - destruct Hc as [Tt | ?]; [| discriminate]. rewrite Tt.
      cbn [negb andb st calls fst snd].
      match goal with |- context [llm_invoke ?p] =>
        destruct (Hl p) as [e He]; rewrite He end.
      run_node. rewrite Hn.
      eexists. split; [reflexivity |]. run_node. done. }
  destruct Ha as (w' & Ha & Hi & Hr).
  exists w'. split; [exact Ha |]. split; [| done].
  unfold app_graph_invoke, mbind, Py_bind. by rewrite Ha.
Qed.

(** X22: a text message without media in which the classifier sees a
    query without an item name, or an intent other than the four known
    ones.  The run ends at the router after the one call to the model.
    The message the router writes for that case is not kept: the
    response is what it was before the run, so a run that starts without
    a response ends unanswered. *)
Theorem router_message_is_lost (w : World) (a : QueryAnalysis) :
  truthy (field w "incoming_media_id") = false →
  truthy (field w "incoming_text") = true →
  let prompt :=
    build_prompt py_repr (field w "incoming_message_type") "not present"
      (field w "incoming_text") in
  llm_invoke prompt = Ok a →
  (qa_intent a = "query_product" ∧
   truthy (opt_str (qa_item_name a)) = false) ∨
  (qa_intent a ≠ "query_product" ∧ qa_intent a ≠ "ingest_product" ∧
   qa_intent a ≠ "greeting" ∧ qa_intent a ≠ "unknown") →
  truthy (field w "response") = false →
  ∃ w',
    app_graph_invoke py_repr llm_invoke add_documents meili_search uuid4 w
      = (Ok tt, w') ∧
    calls w' = (calls w ++ [LlmInvoke prompt])%list ∧
    st w' !! "intent" = Some (VStr (qa_intent a)) ∧
    st w' !! "response" = st w !! "response" ∧
    resp (snd (route_after_intent_analysis (st w'))) =
      VStr (if String.eqb (qa_intent a) "query_product"
            then "You asked to search, but didn't specify an item."
            else "Sorry, I encountered an issue processing your request.") ∧
    unanswered w'.
Proof.
  intros Tm Tt prompt Hl Hcase Tr. unfold field in *.
  unfold app_graph_invoke, route, unanswered, resp, field,
    analyze_intent_node, llm_analysis, mbind, Py_bind, state_get,
    try_except, lift_outcome, log_call, state_set, state_item, mret, Py_ret.
  cbn [st calls fst snd]. rewrite Tm, Tt.
  cbn [negb andb st calls fst snd]. fold prompt. rewrite Hl.
  destruct a as [intent name loc price cur].
  cbn [qa_intent qa_item_name qa_location qa_price qa_currency] in *.
  assert (Ei : String.eqb intent "ingest_product" = false).
  { destruct Hcase as [[-> _] | (_ & H & _)]; [reflexivity |].
    by apply String.eqb_neq. }
  assert (Eg : String.eqb intent "greeting" = false).
  { destruct Hcase as [[-> _] | (_ & _ & H & _)]; [reflexivity |].
    by apply String.eqb_neq. }
  assert (Eu : String.eqb intent "unknown" = false).
  { destruct Hcase as [[-> _] | (_ & _ & _ & H)]; [reflexivity |].
    by apply String.eqb_neq. }
  assert (Hname : String.eqb intent "query_product" = true →
                  truthy (opt_str name) = false).
  { intros E. destruct Hcase as [[_ H] | [H _]]; [exact H |].
    by apply String.eqb_eq in E. }
  run_node. cbn [eq_str].
  unfold route_after_intent_analysis, in_strs, query_intents, ingest_intents.
  cbn [existsb eq_str].
  destruct (String.eqb intent "query_product") eqn:Eq;
  destruct (truthy (opt_str loc)) eqn:El;
  repeat (progress (cbn [st calls fst snd andb negb orb eq_str from_option id];
                    map_look;
                    rewrite ?Eq, ?Ei, ?Eg, ?Eu, ?El, ?Tr, ?Hname by reflexivity));
  (eexists; split; [reflexivity |]);
  repeat (progress (cbn [st calls fst snd andb negb orb eq_str from_option id];
                    map_look;
                    rewrite ?Eq, ?Ei, ?Eg, ?Eu, ?El, ?Tr, ?Hname by reflexivity)).
  all: repeat split; reflexivity.
Qed.

End NodeFacts.

(** ** The router *)

(** X11: the routing table.  The run goes to the search exactly when
    the intent is ['query_product'] and an item name is set, and to the
    structurer exactly when the intent is ['ingest_product'].  A query
    without an item ends the run with the message that no item was
    specified, and an intent outside the four known ones ends it with
    the generic apology, each only when no response is set yet. *)
Theorem route_decision (s : gmap string pyval) :
  let intent := default VNone (s !! "intent") in
  let item := default VNone (s !! "item_name") in
  (fst (route_after_intent_analysis s) = SearchMeili ↔
     intent = VStr "query_product" ∧ truthy item = true) ∧
  (fst (route_after_intent_analysis s) = StructureIngestionData ↔
     intent = VStr "ingest_product") ∧
  (intent = VStr "query_product" → truthy item = false →
   truthy (resp s) = false →
     snd (route_after_intent_analysis s) =
       <["response" := VStr "You asked to search, but didn't specify an item."]> s) ∧
  (fst (route_after_intent_analysis s) = END →
   intent ≠ VStr "query_product" → intent ≠ VStr "greeting" →
   intent ≠ VStr "unknown" → truthy (resp s) = false →
     snd (route_after_intent_analysis s) =
       <["response" := VStr "Sorry, I encountered an issue processing your request."]> s).
Proof.
  intros intent item.
  unfold route_after_intent_analysis, resp, in_strs, query_intents,
    ingest_intents.
  cbn [existsb]. rewrite !orb_false_r. fold intent item.
  assert (Heq : ∀ lit, eq_str intent lit = true ↔ intent = VStr lit).
  { intros lit. destruct intent; cbn; try (split; [discriminate | done]).
    rewrite String.eqb_eq. split; [by intros -> | by intros [= ->]]. }
  destruct (eq_str intent "query_product") eqn:Eq.
  - apply Heq in Eq as Hq. rewrite Hq.
    destruct (truthy item) eqn:Ti; cbn [fst snd];
      repeat split; try done; try (by intros [? ?]).
    + intros _ _ ->. reflexivity.
  - assert (Hq : intent ≠ VStr "query_product").
    { intros H%Heq. congruence. }
    destruct (eq_str intent "ingest_product") eqn:Ei.
    + apply Heq in Ei as Hi. rewrite Hi. cbn [fst snd].
      repeat split; try done; try (by intros [? ?]).
    + assert (Hi : intent ≠ VStr "ingest_product").
      { intros H%Heq. congruence. }
      destruct (eq_str intent "greeting") eqn:Eg;
        [| destruct (eq_str intent "unknown") eqn:Eu]; cbn [fst snd];
        repeat split; try done; try (by intros [? ?]).
      * intros _ _ Hg. apply Heq in Eg. done.
      * intros _ _ _ Hu. apply Heq in Eu. done.
      * intros _ _ _ _ ->. reflexivity.
Qed.

(** X12: routing is idempotent: routing the state the router leaves
    gives the same decision and the same state. *)
Theorem route_idempotent (s : gmap string pyval) :
  route_after_intent_analysis (snd (route_after_intent_analysis s)) =
    route_after_intent_analysis s.
Proof.
  unfold route_after_intent_analysis, in_strs, query_intents, ingest_intents.
  cbn [existsb]. rewrite !orb_false_r.
  destruct (eq_str (default VNone (s !! "intent")) "query_product") eqn:Eq;
    [ destruct (truthy (default VNone (s !! "item_name"))) eqn:Ti
    | destruct (eq_str (default VNone (s !! "intent")) "ingest_product") eqn:Ei;
      [| destruct (eq_str (default VNone (s !! "intent")) "greeting") eqn:Eg;
         [| destruct (eq_str (default VNone (s !! "intent")) "unknown") eqn:Eu]] ];
  destruct (truthy (default VNone (s !! "response"))) eqn:Tr;
  cbn [fst snd negb]; map_look;
  rewrite ?Eq, ?Ti, ?Ei, ?Eg, ?Eu, ?Tr; reflexivity.
Qed.

(** * The HTTP clients *)

Section SendFacts.
Import Http Whatsapp.
Variable requests_post :
  string → list (string * string) → pyval → result pyval.

Lemma send_text_message_posts (self : WhatsAppClient)
    (to message_body : string) (s : Env) :
  ∃ b,
    send_text_message requests_post self to message_body s =
      (Done b,
       mkEnv (requests s ++
                [HttpPost (base_url self) (headers self) (payload to message_body)])
             (files s)).
Proof.
  unfold send_text_message, try_io, mbind, IO_bind, send, lift, mret, IO_ret.
  cbn [requests files].
  repeat (case_match; simplify_eq; cbn in *; try by eexists).
Qed.

(** X16: [send_text_message] never raises and posts exactly once, the
    text payload to the client's URL.  It returns [True] exactly when
    the reply is a dict whose ['messages'] entry (by default a list
    holding one empty dict) is a non-empty list whose first element is a
    dict with a non-empty ['id']; an HTTP failure, an empty list or any
    other shape gives [False]. *)
Theorem send_text_message_result (self : WhatsAppClient)
    (to message_body : string) (s : Env) :
  ∃ b,
    send_text_message requests_post self to message_body s =
      (Done b,
       mkEnv (requests s ++
                [HttpPost (base_url self) (headers self) (payload to message_body)])
             (files s)) ∧
    (b = true ↔
     ∃ d first rest id,
       requests_post (base_url self) (headers self) (payload to message_body)
         = Done (VDict d) ∧
       default (VList [VDict []]) (assoc "messages" d)
         = VList (VDict first :: rest) ∧
       assoc "id" first = Some id ∧
       truthy id = true).
Proof.
  unfold send_text_message, try_io, mbind, IO_bind, send, lift, mret, IO_ret.
  cbn [requests files].
  destruct (requests_post _ _ _) as [[| | | | | | d |] | e] eqn:Hp; cbn;
    try (exists false; split; [reflexivity |];
         split; [discriminate | intros (? & ? & ? & ? & ? & _); discriminate]).
  destruct (default (VList [VDict []]) (assoc "messages" d))
    as [| | | | [| ? ?] | [| x rest] | |] eqn:Hm; cbn;
    try (exists false; split; [reflexivity |];
         split; [discriminate
                | intros (? & ? & ? & ? & [= <-] & ? & _); congruence]).
  destruct x as [| | | | | | first |]; cbn;
    try (exists false; split; [reflexivity |];
         split; [discriminate
                | intros (? & ? & ? & ? & [= <-] & ? & _); congruence]).
  destruct (assoc "id" first) as [id |] eqn:Hi; cbn.
  - destruct (truthy id) eqn:Ht; cbn.
    + exists true. split; [reflexivity |]. split; [| done].
      intros _. by exists d, first, rest, id.
    + exists false. split; [reflexivity |]. split; [discriminate |].
      intros (? & ? & ? & ? & [= <-] & ? & ? & ?). congruence.
  - exists false. split; [reflexivity |]. split; [discriminate |].
    intros (? & ? & ? & ? & [= <-] & ? & ? & ?). congruence.
Qed.

(** X17: the constructor raises [ValueError] exactly when the access
    token or the phone number id is empty; a client it returns posts to
    the messages endpoint of its phone number id with the token as
    bearer. *)
Theorem client_posts_to_graph_api (token phone to message_body : string)
    (s : Env) :
  (token = "" ∨ phone = "" ↔ ∃ msg, init token phone = Failed (ValueError msg)) ∧
  (∀ self, init token phone = Done self →
     token ≠ "" ∧ phone ≠ "" ∧
     ∃ b, send_text_message requests_post self to message_body s =
       (Done b,
        mkEnv (requests s ++
                 [HttpPost ("https://graph.facebook.com/v20.0/" +:+ phone +:+ "/messages")
                    [("Authorization", "Bearer " +:+ token);
                     ("Content-Type", "application/json")]
                    (payload to message_body)])
              (files s))).
Proof.
  unfold init. split.
  - destruct token as [| c token]; [split; [intros _; by eexists | by left] |].
    destruct phone as [| c' phone]; [split; [intros _; by eexists | by right] |].
    cbn. split; [intros [? | ?]; discriminate | intros [? ?]; discriminate].
  - intros self Hs.
    assert (token ≠ "" ∧ phone ≠ "" ∧ self = mkClient token phone
              (META_GRAPH_API_URL +:+ phone +:+ "/messages")
              [("Authorization", "Bearer " +:+ token);
               ("Content-Type", "application/json")]) as (Ht & Hp & ->).
    { destruct token, phone; cbn in Hs; try discriminate.
      by injection Hs as <-. }
    split; [exact Ht |]. split; [exact Hp |].
    apply send_text_message_posts.
Qed.
End SendFacts.

Ltac files_solver :=
  repeat (progress
    (rewrite ?elem_of_union, ?elem_of_difference, ?elem_of_singleton in * ));
  intuition congruence.

Section DownloadFacts.
Import Http WhatsappClient.
Variable requests_get : string → list (string * string) → result pyval.
Variable requests_stream : pyval → list (string * string) → stream_result.
Variable os_remove : string → bool.
Variable splitext_ext : string → string.
Variable lower : string → string.
Variable guess_extension : string → option string.
Variable path_join : string → string → string.
Variable abspath : string → string.
Variable uuid4 : nat → string.

(** X18: [get_media_url] never raises and sends exactly one GET, to the
    base URL followed by the media id.  It returns the ['url'] entry of
    the reply when the reply is a dict in which that entry is non-empty,
    and [None] in every other case. *)
Theorem get_media_url_result (self : WhatsAppClient) (media_id : string)
    (s : Env) :
  ∃ v,
    get_media_url requests_get self media_id s =
      (Done v,
       mkEnv (requests s ++
                [HttpGet (base_url self +:+ "/" +:+ media_id) (headers self)])
             (files s)) ∧
    (v = VNone ∨ url_found requests_get self media_id v) ∧
    (v = VNone → ∀ u, ¬ url_found requests_get self media_id u).
Proof.
  unfold url_found, get_media_url, try_io, mbind, IO_bind, send, lift, mret,
    IO_ret.
  cbn [requests files].
  destruct (requests_get _ _) as [[| | | | | | d |] | e] eqn:Hg; cbn;
    try (exists VNone; split; [reflexivity |]; split; [by left |];
         intros _ u (? & ? & _); discriminate).
  destruct (assoc "url" d) as [v |] eqn:Hu; cbn.
  - destruct (truthy v) eqn:Ht; cbn.
    + exists v. split; [reflexivity |]. split; [right; by exists d |].
      intros ->. discriminate.
    + exists VNone. split; [reflexivity |]. split; [by left |].
      intros _ u (? & [= <-] & ? & ?). congruence.
  - exists VNone. split; [reflexivity |]. split; [by left |].
    intros _ u (? & [= <-] & ? & ?). congruence.
Qed.

(** X19: [download_media] never raises and streams the URL once.  It
    returns [True] exactly when the stream completed, and then the file
    exists.  After a failure the file is gone if its removal succeeds,
    even one that was there before.  No other file is touched. *)
Theorem download_media_result (self : WhatsAppClient) (media_url : pyval)
    (save_path : string) (s : Env) :
  ∃ b s',
    download_media requests_stream os_remove self media_url save_path s
      = (Done b, s') ∧
    requests s' = (requests s ++ [HttpStream media_url (headers self)])%list ∧
    (b = true ↔ requests_stream media_url (headers self) = Complete) ∧
    (b = true → save_path ∈ files s') ∧
    (b = false → os_remove save_path = true → save_path ∉ files s') ∧
    (∀ p, p ≠ save_path → p ∈ files s' ↔ p ∈ files s).
Proof.
  unfold download_media, stream_to_file, remove_partial, try_io, mbind,
    IO_bind, send, mret, IO_ret.
  cbn [requests files].
  destruct (requests_stream _ _) as [e | e |] eqn:Hs; cbn [requests files].
  - destruct (decide (save_path ∈ files s)) as [Hin | Hin];
      [destruct (os_remove save_path) eqn:Hr |];
      (eexists _, _; split; [reflexivity |]); cbn [requests files];
      repeat split; try done; files_solver.
  - rewrite decide_True
      by (apply elem_of_union; left; by apply elem_of_singleton).
    destruct (os_remove save_path) eqn:Hr;
      (eexists _, _; split; [reflexivity |]); cbn [requests files];
      repeat split; try done; files_solver.

  - eexists _, _. split; [reflexivity |]. cbn [requests files].
    repeat split; try done; files_solver.
Qed.

(** X20: [download_media_by_id] never raises.  Its result is [None] or
    the absolute path of the file, named prefix, underscore, fresh uuid,
    extension, inside the directory; it is the path exactly when the URL
    lookup gave a URL and the stream of that URL completed, and then the
    file exists.  When the lookup gives no URL nothing else is done: no
    uuid is drawn and no download is tried. *)
Theorem download_media_by_id_result (self : WhatsAppClient)
    (media_id filename_prefix save_dir : string)
    (mime_type original_filename : option string) (s : Env) :
  let n := List.length (List.filter is_new_uuid (requests s)) in
  let extension :=
    choose_extension splitext_ext lower guess_extension mime_type
      original_filename in
  let save_path :=
    path_join save_dir (filename_prefix +:+ "_" +:+ uuid4 n +:+ extension) in
  ∃ v s',
    download_media_by_id requests_get requests_stream os_remove splitext_ext
      lower guess_extension path_join abspath uuid4 self media_id
      filename_prefix save_dir mime_type original_filename s = (Done v, s') ∧
    (v = VNone ∨ v = VStr (abspath save_path)) ∧
    (v = VStr (abspath save_path) ↔
       ∃ u, url_found requests_get self media_id u ∧
            requests_stream u (headers self) = Complete) ∧
    (v = VStr (abspath save_path) → save_path ∈ files s') ∧
    ((∀ u, ¬ url_found requests_get self media_id u) →
       s' = mkEnv (requests s ++
                     [HttpGet (base_url self +:+ "/" +:+ media_id) (headers self)])
                  (files s)).
Proof.
  intros n extension save_path.
  unfold download_media_by_id, get_media_url, download_media, stream_to_file,
    remove_partial, fresh_uuid, url_found, try_io, mbind, IO_bind, send, lift,
    mret, IO_ret.
  cbn [requests files].
  destruct (requests_get _ _) as [[| | | | | | d |] | e] eqn:Hg;
    cbn [of_outcome dict_get truthy negb requests files];
    try (eexists _, _; split; [reflexivity |]; split; [by left |];
         split; [split; [discriminate | intros (? & (? & ? & _) & _); discriminate] |];
         split; [discriminate | done]).
  destruct (assoc "url" d) as [u |] eqn:Hu; unfold from_option, id;
    [destruct (truthy u) eqn:Ht |]; cbn [truthy negb requests files].
  2, 3: eexists _, _; (split; [reflexivity |]); (split; [by left |]);
    (split; [split; [discriminate |
              intros (? & (? & [= <-] & ? & ?) & _); congruence] |]);
    (split; [discriminate | done]).
  rewrite Ht. cbn [negb requests files].
  rewrite List.filter_app. cbn [List.filter is_new_uuid]. rewrite app_nil_r.
  fold n. fold extension. fold save_path.
  destruct (requests_stream u (headers self)) as [e | e |] eqn:Hs;
    cbn [requests files].
  - destruct (decide (save_path ∈ files s)); [destruct (os_remove save_path) |];
      (eexists _, _; split; [reflexivity |]); (split; [by left |]);
      (split; [split; [discriminate |
                intros (? & (? & [= <-] & ? & ?) & ?); simplify_eq; congruence] |]);
      (split; [discriminate |]);
      intros Hn; destruct (Hn u); by exists d.
  - rewrite decide_True
      by (apply elem_of_union; left; by apply elem_of_singleton).
    destruct (os_remove save_path);
      (eexists _, _; split; [reflexivity |]); (split; [by left |]);
      (split; [split; [discriminate |
                intros (? & (? & [= <-] & ? & ?) & ?); simplify_eq; congruence] |]);
      (split; [discriminate |]);
      intros Hn; destruct (Hn u); by exists d.
  - eexists _, _. split; [reflexivity |]. split; [by right |].
    split; [split; [intros _; exists u; split; [by exists d | done] | done] |].
    split; [intros _; cbn [files]; apply elem_of_union; left;
            by apply elem_of_singleton |].
    intros Hn; destruct (Hn u); by exists d.
Qed.

(** X21: with an original file name, the MIME type plays no part: the
    download behaves the same for any two MIME types, and the extension
    is the lower-cased extension of the file name, or [.bin] when the
    name has none, even if the MIME type is known. *)
Theorem file_name_overrides_mime_type (self : WhatsAppClient)
    (media_id filename_prefix save_dir original_filename : string)
    (s : Env) :
  original_filename ≠ "" →
  (∀ m1 m2,
     download_media_by_id requests_get requests_stream os_remove splitext_ext
       lower guess_extension path_join abspath uuid4 self media_id
       filename_prefix save_dir m1 (Some original_filename) s =
     download_media_by_id requests_get requests_stream os_remove splitext_ext
       lower guess_extension path_join abspath uuid4 self media_id
       filename_prefix save_dir m2 (Some original_filename) s) ∧
  (∀ m, choose_extension splitext_ext lower guess_extension m
          (Some original_filename) =
        if String.eqb (splitext_ext original_filename) ""
        then ".bin" else lower (splitext_ext original_filename)).
Proof.
  intros Hf.
  assert (Ht : truthy (VStr original_filename) = true)
    by (by destruct original_filename).
  assert (He : ∀ m, choose_extension splitext_ext lower guess_extension m
          (Some original_filename) =
        if String.eqb (splitext_ext original_filename) ""
        then ".bin" else lower (splitext_ext original_filename)).
  { intros m. unfold choose_extension. cbn [opt_str default from_option id].
    rewrite Ht. cbn [truthy]. by destruct (String.eqb _ ""). }
  split; [| exact He].
  intros m1 m2. unfold download_media_by_id. by rewrite !He.
Qed.
End DownloadFacts.

(** * The further theorems at explicit inputs *)

(** X2 at a text question whose search raises. *)
Lemma search_backend_failure_witness :
  truthy (field Sample.query_world "item_name") = true ∧
  ∃ w', search_meilisearch_node Sample.repr Cases.search_fails
          Sample.query_world = (Ok tt, w') ∧
        st w' !! "response" = Some (VStr "Sorry, there was an error searching.") ∧
        st w' !! "search_results" = Some (VList []).
Proof.
  split; [vm_compute; reflexivity |].
  destruct (search_backend_failure Sample.repr Cases.search_fails
              Sample.query_world ltac:(vm_compute; reflexivity)
              ltac:(vm_compute; reflexivity) ltac:(intros r; discriminate))
    as (w' & Hrun & Hr & Hs & _).
  exists w'. repeat split; assumption.
Defined.

(** X3 at a text question answered with four hits, the last one
    malformed. *)
Lemma search_first_three_witness :
  truthy (field Sample.query_world "item_name") = true ∧
  ∃ w', search_meilisearch_node Sample.repr Cases.search_four_hits
          Sample.query_world = (Ok tt, w') ∧
        st w' !! "response" =
          Some (VStr ("Found these results for 'iphone':" +:+ newline +:+
                      "- iPhone 12 (900000 UGX, Vendor: 256700111111)" +:+ newline +:+
                      "- iPhone 13 (1200000 UGX, Vendor: 256700222222)" +:+ newline +:+
                      "- iPhone 12 (900000 UGX, Vendor: 256700111111)")).
Proof.
  split; [vm_compute; reflexivity |].
  destruct (search_first_three Sample.repr Cases.search_four_hits
              Sample.query_world
              [("hits", VList [VDict Sample.hit_a; VDict Sample.hit_b;
                               VDict Sample.hit_a; VStr "junk"])]
              [VDict Sample.hit_a; VDict Sample.hit_b;
               VDict Sample.hit_a; VStr "junk"] VNone
              ltac:(vm_compute; reflexivity) ltac:(vm_compute; reflexivity)
              ltac:(vm_compute; reflexivity) eq_refl ltac:(discriminate)
              ltac:(vm_compute; reflexivity))
    as (w' & Hrun & Hres).
  exists w'. split; [exact Hrun |].
  cbn [forallb take is_dict andb] in Hres.
  destruct Hres as (_ & lines & Hl & _ & Hr).
  rewrite Hr. vm_compute in Hl. injection Hl as <-.
  vm_compute. reflexivity.
Defined.

(** X4 at the state prepared for a text question. *)
Lemma graph_call_discipline_witness :
  is_Some (st (Sample.prepared Sample.text_question) !! "item_name") ∧
  ∃ w' l,
    app_graph_invoke Sample.repr (Sample.llm_returns Sample.iphone_query)
      Sample.add_task_object Sample.search_two_hits Sample.uuid
      (Sample.prepared Sample.text_question) = (Ok tt, w') ∧
    calls w' = (calls (Sample.prepared Sample.text_question) ++ l)%list ∧
    graph_log l = true ∧
    existsb is_reply l = false.
Proof.
  assert (Hn : is_Some (st (Sample.prepared Sample.text_question) !! "item_name")).
  { vm_compute. by eexists. }
  split; [exact Hn |].
  destruct (graph_call_discipline Sample.repr
              (Sample.llm_returns Sample.iphone_query)
              Sample.add_task_object Sample.search_two_hits Sample.uuid
              (Sample.prepared Sample.text_question) Hn
              ltac:(left; vm_compute; reflexivity)
              ltac:(right; eexists; vm_compute; reflexivity)
              ltac:(left; vm_compute; reflexivity))
    as (w' & l & Hrun & Hc & Hl & Hrep & _).
  exists w', l. repeat split; assumption.
Defined.

(** X7 at a two-line description with accented letters: the name has
    50 characters, in 55 bytes. *)
Lemma structurer_fallback_name_witness :
  truthy (field Cases.described_world "item_name") = false ∧
  ∃ w' d name,
    structure_ingestion_data_node Sample.uuid Cases.described_world
      = (Ok tt, w') ∧
    st w' !! "product_to_ingest" = Some (VDict d) ∧
    assoc "name" d = Some (VStr name) ∧
    name = "Vélo électrique pliant très léger, idéal pour la v" ∧
    str_len name = 50%nat ∧
    String.length name = 55%nat.
Proof.
  split; [vm_compute; reflexivity |].
  destruct (structurer_fallback_name Sample.uuid Cases.described_world
              Cases.velo_description
              ltac:(vm_compute; reflexivity) ltac:(vm_compute; reflexivity)
              ltac:(vm_compute; discriminate))
    as (w' & d & name & Hrun & Hp & Hn & _ & Hname & _).
  exists w', d, name. split; [exact Hrun |]. split; [exact Hp |].
  split; [exact Hn |].
  rewrite Hname. vm_compute. repeat split; reflexivity.
Defined.

(** X8 at a captioned photo. *)
Lemma structurer_builds_product_witness :
  truthy (field Cases.analyzed_shoes "item_name") = true ∧
  ∃ w' d,
    structure_ingestion_data_node Sample.uuid Cases.analyzed_shoes
      = (Ok tt, w') ∧
    st w' !! "product_to_ingest" = Some (VDict d) ∧
    assoc "vendor" d = Some (VStr "256700123456") ∧
    assoc "name" d = Some (VStr "Nike shoes").
Proof.
  assert (Hi : truthy (field Cases.analyzed_shoes "item_name") = true)
    by (vm_compute; reflexivity).
  split; [exact Hi |].
  destruct (structurer_builds_product Sample.uuid Cases.analyzed_shoes
              (or_introl Hi))
    as (w' & d & name & Hrun & Hst & _ & _ & _ & Hn & Hname & _ & _ & _ & _
        & Hv & _).
  exists w', d. split; [exact Hrun |].
  split; [rewrite Hst; apply lookup_insert_eq |].
  split; [rewrite Hv; vm_compute; reflexivity |].
  rewrite Hn, (Hname Hi). vm_compute. reflexivity.
Defined.

(** X9 at a product that has a name only. *)
Lemma writer_without_id_witness :
  assoc "id" Cases.product_without_id = None ∧
  ∃ w', add_product_to_meili_node Sample.add_task_object Cases.no_id_world
          = (Ok tt, w') ∧
        calls w' = [] ∧
        st w' !! "response" =
          Some (VStr "Sorry, there was an error adding the product to the catalog.").
Proof.
  split; [reflexivity |].
  destruct (writer_without_id Sample.add_task_object Cases.no_id_world
              Cases.product_without_id
              ltac:(vm_compute; reflexivity) ltac:(discriminate) eq_refl)
    as (w' & Hrun & Hc & Hst).
  exists w'. split; [exact Hrun |]. split; [exact Hc |].
  rewrite Hst. apply lookup_insert_eq.
Defined.

(** X10 at a product that is a string. *)
Lemma writer_rejects_non_dict_witness :
  truthy (field Cases.string_product_world "product_to_ingest") = true ∧
  add_product_to_meili_node Sample.add_task_object Cases.string_product_world
    = (Raise AttributeError, Cases.string_product_world).
Proof.
  split; [vm_compute; reflexivity |].
  apply (proj1 (writer_rejects_non_dict Sample.add_task_object
                  Cases.string_product_world));
    vm_compute; reflexivity.
Defined.

(** X13 at a text question. *)
Lemma classify_text_only_witness :
  truthy (field (Sample.prepared Sample.text_question) "incoming_text") = true ∧
  ∃ w', analyze_intent_node Sample.repr (Sample.llm_returns Sample.iphone_query)
          (Sample.prepared Sample.text_question) = (Ok tt, w') ∧
        st w' !! "intent" = Some (VStr "query_product") ∧
        st w' !! "item_name" = Some (VStr "iphone") ∧
        st w' !! "description" = Some VNone ∧
        st w' !! "meili_filters" = Some VNone.
Proof.
  split; [vm_compute; reflexivity |].
  destruct (classify_text_only Sample.repr (Sample.llm_returns Sample.iphone_query)
              (Sample.prepared Sample.text_question) Sample.iphone_query
              ltac:(vm_compute; reflexivity) ltac:(vm_compute; reflexivity)
              eq_refl)
    as (w' & Hrun & _ & Hi & Hn & _ & _ & _ & Hd & Hf & _).
  exists w'. split; [exact Hrun |]. split; [exact Hi |].
  split; [exact Hn |]. split; [exact Hd | exact Hf].
Defined.

(** X14 at a text question, with a language model that is down. *)
Lemma classifier_failure_ends_run_witness :
  st (Sample.prepared Sample.text_question) !! "item_name" = Some VNone ∧
  ∃ w', app_graph_invoke Sample.repr Sample.llm_fails Sample.add_task_object
          Sample.search_two_hits Sample.uuid
          (Sample.prepared Sample.text_question) = (Ok tt, w') ∧
        st w' !! "intent" = Some (VStr "error") ∧
        st w' !! "response" =
          Some (VStr "Sorry, I had trouble analyzing the details of your request.").
Proof.
  assert (Hn : st (Sample.prepared Sample.text_question) !! "item_name"
               = Some VNone) by (vm_compute; reflexivity).
  split; [exact Hn |].
  destruct (classifier_failure_ends_run Sample.repr Sample.llm_fails
              Sample.add_task_object Sample.search_two_hits Sample.uuid
              (Sample.prepared Sample.text_question) VNone Hn
              ltac:(left; vm_compute; reflexivity)
              ltac:(left; vm_compute; reflexivity)
              ltac:(intros prompt; by eexists))
    as (w' & prompt & _ & Hrun & _ & Hi & Hr & _).
  exists w'. split; [exact Hrun |]. split; [exact Hi | exact Hr].
Defined.

(** X15 at a state built by hand, with a language model that is down. *)
Lemma classifier_failure_missing_key_witness :
  st Cases.bare_world !! "item_name" = None ∧
  ∃ w', app_graph_invoke Sample.repr Sample.llm_fails Sample.add_task_object
          Sample.search_two_hits Sample.uuid Cases.bare_world
          = (Raise (KeyError "item_name"), w') ∧
        st w' !! "response" =
          Some (VStr "Sorry, I had trouble analyzing the details of your request.").
Proof.
  assert (Hn : st Cases.bare_world !! "item_name" = None)
    by (vm_compute; reflexivity).
  split; [exact Hn |].
  destruct (classifier_failure_missing_key Sample.repr Sample.llm_fails
              Sample.add_task_object Sample.search_two_hits Sample.uuid
              Cases.bare_world Hn
              ltac:(left; vm_compute; reflexivity)
              ltac:(left; vm_compute; reflexivity)
              ltac:(intros prompt; by eexists))
    as (w' & _ & Hrun & _ & Hr).
  exists w'. split; [exact Hrun | exact Hr].
Defined.

(** X22 at a text question in which the classifier sees a query without
    an item name. *)
Lemma router_message_is_lost_witness :
  truthy (field (Sample.prepared Sample.text_question) "incoming_text") = true ∧
  truthy (field (Sample.prepared Sample.text_question) "response") = false ∧
  ∃ w', app_graph_invoke Sample.repr
          (Sample.llm_returns Cases.query_without_item)
          Sample.add_task_object Sample.search_two_hits Sample.uuid
          (Sample.prepared Sample.text_question) = (Ok tt, w') ∧
        st w' !! "response" = Some VNone ∧
        resp (snd (route_after_intent_analysis (st w'))) =
          VStr "You asked to search, but didn't specify an item." ∧
        unanswered w'.
Proof.
  split; [vm_compute; reflexivity |]. split; [vm_compute; reflexivity |].
  destruct (router_message_is_lost Sample.repr
              (Sample.llm_returns Cases.query_without_item)
              Sample.add_task_object Sample.search_two_hits Sample.uuid
              (Sample.prepared Sample.text_question) Cases.query_without_item
              ltac:(vm_compute; reflexivity) ltac:(vm_compute; reflexivity)
              eq_refl ltac:(left; split; reflexivity)
              ltac:(vm_compute; reflexivity))
    as (w' & Hrun & _ & _ & Hr & Hm & Hu).
  exists w'. split; [exact Hrun |].
  split; [rewrite Hr; vm_compute; reflexivity |].
  split; [exact Hm | exact Hu].
Defined.

(** X21 at a document named [invoice], of MIME type [application/pdf]. *)
Lemma file_name_overrides_mime_type_witness :
  Cases.download_invoice (Some "application/pdf") = Cases.download_invoice None ∧
  fst (Cases.download_invoice (Some "application/pdf")) =
    Http.Done (VStr "/srv/media_uploads/256700123456_wamid1_3f2b6c1e-0d4a-4c57-9b1e-7a5d2e8c4f10.bin").
Proof.
  destruct (file_name_overrides_mime_type Cases.get_url Cases.stream_complete
              Cases.remove_succeeds Cases.no_extension Cases.unchanged
              Cases.guess_pdf Cases.join Cases.under_srv Sample.uuid
              Cases.media_client "1376223850343422" "256700123456_wamid1"
              "media_uploads" "invoice" Cases.empty_env ltac:(discriminate))
    as [Hsame _].
  split; [exact (Hsame (Some "application/pdf") None) |].
  vm_compute. reflexivity.
Defined.
